(** * Meiko: the FasterWhisper command-line wrapper and its smoke test

  A shallow embedding of [fasterWhisper.py] and [test_transcription.py].

  Conventions of the model.
  - A Python [str] is a [string]; a character stands for a code point
    below 256, which is closed under [str.lower] and [str.strip].
  - The file system is a finite map from the paths that exist to their
    size in bytes.
  - Python exceptions are values of [exn]; code runs in a state and
    exception monad, so that output printed before a [raise] is kept.
  - The speech library, the clock and the operating system are an
    environment record of answers; every call made to them is logged. *)

From Stdlib Require Import ZArith Ascii String List Bool Lia.
From stdpp Require Import gmap strings list pretty.

Open Scope Z_scope.

(** ** Python strings *)

Module PyStr.

Definition code (c : ascii) : Z := Z.of_N (N_of_ascii c).

(** [str.isspace] on one character: TAB..CR, FS..US, space, NEL, NBSP. *)
Definition is_space (c : ascii) : bool :=
  let n := code c in
  ((9 <=? n) && (n <=? 13)) || ((28 <=? n) && (n <=? 32))
  || (n =? 133) || (n =? 160).

(** Characters with a lowercase partner 32 code points up. *)
Definition is_upper (c : ascii) : bool :=
  let n := code c in
  ((65 <=? n) && (n <=? 90)) || ((192 <=? n) && (n <=? 214))
  || ((216 <=? n) && (n <=? 222)).

Definition lower_char (c : ascii) : ascii :=
  if is_upper c then ascii_of_N (Z.to_N (code c + 32)) else c.

(** [s.lower()] *)
Fixpoint lower (s : string) : string :=
  match s with
  | EmptyString => EmptyString
  | String c r => String (lower_char c) (lower r)
  end.

(** [s.lstrip()] *)
Fixpoint lstrip (s : string) : string :=
  match s with
  | EmptyString => EmptyString
  | String c r => if is_space c then lstrip r else s
  end.

(** [s.rstrip()] *)
Fixpoint rstrip (s : string) : string :=
  match s with
  | EmptyString => EmptyString
  | String c r =>
      match rstrip r with
      | EmptyString => if is_space c then EmptyString else String c EmptyString
      | r' => String c r'
      end
  end.

(** [s.strip()] *)
Definition strip (s : string) : string := rstrip (lstrip s).

(** [s.rfind(c)], with [-1] when [c] does not occur. *)
Fixpoint rfind (c : ascii) (s : string) : Z :=
  match s with
  | EmptyString => -1
  | String d r =>
      let i := rfind c r in
      if 0 <=? i then i + 1 else if Ascii.eqb c d then 0 else -1
  end.

Definition len (s : string) : Z := Z.of_nat (String.length s).

(** [s[i:]] for [0 <= i]. *)
Definition slice_from (i : Z) (s : string) : string :=
  String.substring (Z.to_nat i) (String.length s - Z.to_nat i)%nat s.

(** [s.split(sep)] for a one-character separator. *)
Fixpoint split (sep : ascii) (s : string) : list string :=
  match s with
  | EmptyString => [EmptyString]
  | String c r =>
      if Ascii.eqb c sep then EmptyString :: split sep r
      else match split sep r with
           | h :: t => String c h :: t
           | [] => [String c EmptyString]
           end
  end.

End PyStr.

(** ** [pathlib] and [os.path], POSIX flavour *)

Module PyPath.

(** The parts of a relative or absolute path: empty components and
    [.] components are dropped when a [Path] is built. *)
Definition parts (p : string) : list string :=
  List.filter (fun x => negb (String.eqb x "" || String.eqb x "."))
    (PyStr.split "/" p).

(** [Path(p).name] *)
Definition name (p : string) : string := List.last (parts p) "".

(** [Path(p).suffix]: from the last dot of the name, when that dot is
    neither its first nor its last character. *)
Definition suffix (p : string) : string :=
  let n := name p in
  let i := PyStr.rfind "." n in
  if (0 <? i) && (i <? PyStr.len n - 1) then PyStr.slice_from i n else "".

(** [os.path.basename(p)]: what follows the last slash. *)
Definition basename (p : string) : string :=
  List.last (PyStr.split "/" p) "".

End PyPath.

(** ** Values *)

(** Python floats are not modelled: the operations the program applies to
    them are an interface, and every theorem holds for each instance. *)
Class PyFloat (float : Type) := {
  (** [a - b] *)
  fsub : float -> float -> float;
  (** [round(n / (1024 * 1024), 2)] for a size [n] in bytes *)
  size_mb : Z -> float;
  (** [f"{x:.2f}"] *)
  format_2f : float -> string
}.

(** What [json.dumps] takes and [json.loads] gives. A [dict] is a list
    of bindings in insertion order. *)
#[warnings="-register-all"]
Inductive json (float : Type) : Type :=
| JNull
| JBool (b : bool)
| JInt (n : Z)
| JFloat (x : float)
| JStr (s : string)
| JList (l : list (json float))
| JObj (kv : list (string * json float)).

Arguments JNull {float}.
Arguments JBool {float} b.
Arguments JInt {float} n.
Arguments JFloat {float} x.
Arguments JStr {float} s.
Arguments JList {float} l.
Arguments JObj {float} kv.

(** [d.get(k)], [None] when the key is absent. *)
Fixpoint dict_get {V : Type} (k : string) (d : list (string * V)) : option V :=
  match d with
  | [] => None
  | (k', v) :: r => if String.eqb k k' then Some v else dict_get k r
  end.

Definition keys {V : Type} (d : list (string * V)) : list string := map fst d.

(** A line printed on standard output: [print(json.dumps(v))], with the
    [ensure_ascii] flag of the call, or plain text. *)
Inductive line (float : Type) : Type :=
| Json (ensure_ascii : bool) (v : json float)
| Text (s : string).

Arguments Json {float} ensure_ascii v.
Arguments Text {float} s.

(** ** Exceptions and the monad of effects *)

Inductive exn : Type :=
| KeyboardInterrupt
| SystemExit (code : Z)
| Exception (cls : string) (msg : string).

(** [str(e)] *)
Definition str_exn (e : exn) : string :=
  match e with
  | KeyboardInterrupt => ""
  | SystemExit c => pretty c
  | Exception _ msg => msg
  end.

(** How a call into the speech library can fail: with an exception of
    the [Exception] family, or interrupted by the user. *)
Inductive fault : Type :=
| Interrupted
| Failed (cls : string) (msg : string).

Definition exn_of_fault (f : fault) : exn :=
  match f with
  | Interrupted => KeyboardInterrupt
  | Failed cls msg => Exception cls msg
  end.

Inductive res (A : Type) : Type :=
| Ok (a : A)
| Raise (e : exn).

Arguments Ok {A} a.
Arguments Raise {A} e.

(** A computation over a state [S]: the state survives a [raise]. *)
Definition M (S A : Type) : Type := S -> S * res A.

Definition ret {S A : Type} (a : A) : M S A := fun s => (s, Ok a).

Definition bind {S A B : Type} (m : M S A) (k : A -> M S B) : M S B :=
  fun s =>
    match m s with
    | (s', Ok a) => k a s'
    | (s', Raise e) => (s', Raise e)
    end.

Definition raise {S A : Type} (e : exn) : M S A := fun s => (s, Raise e).

Definition modify {S : Type} (f : S -> S) : M S unit := fun s => (f s, Ok tt).

(** [try: body / except ...: handler]. [handlers e] is the clause that
    matches [e], if any; what a handler raises is not caught again. *)
Definition try_except {S A : Type}
    (body : M S A) (handlers : exn -> option (M S A)) : M S A :=
  fun s =>
    match body s with
    | (s', Raise e) =>
        match handlers e with
        | Some h => h s'
        | None => (s', Raise e)
        end
    | r => r
    end.

(** The clause [except Exception as e]. *)
Definition except_Exception {S A : Type}
    (h : exn -> M S A) : exn -> option (M S A) :=
  fun e => match e with Exception _ _ => Some (h e) | _ => None end.

(** Runs a computation on the process state inside a method, whose
    state is the object paired with the process state. *)
Definition lift {O S A : Type} (m : M S A) : M (O * S) A :=
  fun st => let (s', r) := m (snd st) in ((fst st, s'), r).

(** Runs a method on a fresh object, which is dropped afterwards. *)
Definition with_object {O S A : Type} (o : O) (m : M (O * S) A) : M S A :=
  fun s => let (st', r) := m (o, s) in (snd st', r).

Declare Scope py_scope.
Delimit Scope py_scope with py.
Notation "x <- c ;; k" := (bind c (fun x => k))
  (at level 100, c at next level, right associativity) : py_scope.
Notation "c ;; k" := (bind c (fun _ => k))
  (at level 100, right associativity) : py_scope.
Open Scope py_scope.

(** ** The process and its environment *)

Definition handle : Type := nat.

(** The arguments of [WhisperModel(...)]. *)
Record load_args : Type := {
  la_model_size : string;
  la_device : string;
  la_compute_type : string;
  la_cpu_threads : Z;
  la_download_root : string;
  la_local_files_only : bool
}.

(** One segment of the lazy sequence; only its text is read. *)
Record segment : Type := { text : string }.

(** The generator [model.transcribe] returns: the segments it yields and
    then either the end of the iteration or a failure. *)
Record generator : Type := {
  yielded : list segment;
  stops_with : option fault
}.

(** The [info] object: its [language] attribute, when it has one. *)
Record info : Type := { info_language : option string }.

(** Every call that leaves the program, in order, with its answer where
    the answer matters later. *)
Inductive call : Type :=
| CallExists (path : string)
| CallGetsize (path : string)
| CallTime
| CallLoad (a : load_args) (answer : fault + handle)
| CallDecode (h : handle) (audio_path : string) (language : option string).

Record log_record : Type := {
  levelno : Z;
  levelname : string;
  message : string
}.

Record proc (float : Type) : Type := {
  stdout : list (line float);
  stderr : list log_record;
  root_level : Z;
  calls : list call;
  (** how many times the clock was read *)
  clock : nat
}.

Arguments stdout {float} p.
Arguments stderr {float} p.
Arguments root_level {float} p.
Arguments calls {float} p.
Arguments clock {float} p.

Record env (float : Type) : Type := {
  (** the paths that exist, with their size in bytes *)
  fs : gmap string Z;
  (** [os.cpu_count()] *)
  cpu_count : option Z;
  (** [os.path.expanduser] *)
  expanduser : string -> string;
  (** [time.time()], by the number of readings made before *)
  now : nat -> float;
  (** [WhisperModel(...)] *)
  whisper_model : load_args -> fault + handle;
  (** [model.transcribe(audio_path, language=..., ...)] *)
  whisper_transcribe :
    handle -> string -> option string -> fault + (generator * info)
}.

Arguments fs {float} e.
Arguments cpu_count {float} e.
Arguments expanduser {float} e.
Arguments now {float} e.
Arguments whisper_model {float} e.
Arguments whisper_transcribe {float} e.

Definition INFO : Z := 20.
Definition WARNING : Z := 30.
Definition ERROR : Z := 40.


(** ** Primitive actions *)

Section Actions.
Context {float : Type}.

Definition record_call (c : call) (s : proc float) : proc float :=
  {| stdout := stdout s; stderr := stderr s; root_level := root_level s;
     calls := calls s ++ [c]; clock := clock s |}.

(** [print(json.dumps(v, ensure_ascii=...))] *)
Definition print_json (ensure_ascii : bool) (v : json float) : M (proc float) unit :=
  modify (fun s =>
    {| stdout := stdout s ++ [Json ensure_ascii v]; stderr := stderr s;
       root_level := root_level s; calls := calls s; clock := clock s |}).

(** [logging.getLogger().setLevel(l)] *)
Definition setLevel (l : Z) : M (proc float) unit :=
  modify (fun s =>
    {| stdout := stdout s; stderr := stderr s; root_level := l;
       calls := calls s; clock := clock s |}).

(** A record reaches standard error when its level is enabled: the
    module logger has no level of its own and inherits the root's. *)
Definition log (l : Z) (name msg : string) : M (proc float) unit :=
  modify (fun s =>
    {| stdout := stdout s;
       stderr := stderr s ++
                 (if root_level s <=? l
                  then [{| levelno := l; levelname := name; message := msg |}]
                  else []);
       root_level := root_level s; calls := calls s; clock := clock s |}).

Definition logger_info (msg : string) : M (proc float) unit := log INFO "INFO" msg.

Definition logger_error (msg : string) : M (proc float) unit := log ERROR "ERROR" msg.

(** [sys.exit(code)] *)
Definition sys_exit {A : Type} (code : Z) : M (proc float) A := raise (SystemExit code).

(** [os.path.exists(p)] *)
Definition os_path_exists (e : env float) (p : string) : M (proc float) bool :=
  fun s =>
    (record_call (CallExists p) s,
     Ok (match fs e !! p with Some _ => true | None => false end)).

(** [os.path.getsize(p)]: raises on a path that does not exist. *)
Definition os_path_getsize (e : env float) (p : string) : M (proc float) Z :=
  fun s =>
    (record_call (CallGetsize p) s,
     match fs e !! p with
     | Some n => Ok n
     | None =>
         Raise (Exception "FileNotFoundError"
                  ("[Errno 2] No such file or directory: '" +:+ p +:+ "'"))
     end).

(** [time.time()] *)
Definition time_time (e : env float) : M (proc float) float :=
  fun s =>
    ({| stdout := stdout s; stderr := stderr s; root_level := root_level s;
        calls := calls s ++ [CallTime]; clock := S (clock s) |},
     Ok (now e (clock s))).

(** [WhisperModel(...)] *)
Definition WhisperModel (e : env float) (a : load_args) : M (proc float) handle :=
  fun s =>
    (record_call (CallLoad a (whisper_model e a)) s,
     match whisper_model e a with
     | inl f => Raise (exn_of_fault f)
     | inr h => Ok h
     end).

(** [model.transcribe(...)] on the value of the [model] field: calling
    it on [None] is an [AttributeError]. The path and the language are
    the arguments that vary; the others are constants of the source
    ([beam_size=1], [best_of=1], [patience=1.0], [temperature=0.0],
    [condition_on_previous_text=False], [vad_filter=True] with its
    three parameters, [word_timestamps=False],
    [without_timestamps=True]) and stay implicit in the call. *)
Definition model_transcribe (e : env float) (model : option handle)
    (audio_path : string) (language : option string)
    : M (proc float) (generator * info) :=
  match model with
  | None =>
      raise (Exception "AttributeError"
               "'NoneType' object has no attribute 'transcribe'")
  | Some h =>
      fun s =>
        (record_call (CallDecode h audio_path language) s,
         match whisper_transcribe e h audio_path language with
         | inl f => Raise (exn_of_fault f)
         | inr r => Ok r
         end)
  end.

(** The loop [for segment in segments: full_text += segment.text + " ";
    segment_count += 1], from the values of the two variables. *)
Fixpoint for_segments (segs : list segment) (stop : option fault)
    (full_text : string) (segment_count : Z) : res (string * Z) :=
  match segs with
  | [] =>
      match stop with
      | None => Ok (full_text, segment_count)
      | Some f => Raise (exn_of_fault f)
      end
  | seg :: rest =>
      for_segments rest stop (full_text +:+ (text seg +:+ " ")) (segment_count + 1)
  end.

Definition iterate (g : generator) : M (proc float) (string * Z) :=
  fun s => (s, for_segments (yielded g) (stops_with g) "" 0).

End Actions.

(** ** [fasterWhisper.py] *)

Module FasterWhisperTranscriber.

Record transcriber : Type := {
  model_size : string;
  device : string;
  language : option string;
  compute_type : string;
  model : option handle;
  cpu_threads : Z
}.

Section Methods.
Context {float : Type} `{PyFloat float}.

(** [language if language and language != "auto" else None] *)
Definition normalize_language (language : option string) : option string :=
  match language with
  | Some l =>
      if negb (String.eqb l "") && negb (String.eqb l "auto") then Some l else None
  | None => None
  end.

(** [min(4, os.cpu_count() or 4)] *)
Definition pick_cpu_threads (count : option Z) : Z :=
  Z.min 4 (match count with
           | Some n => if n =? 0 then 4 else n
           | None => 4
           end).

Definition __init__ (e : env float)
    (model_size device : string) (language : option string)
    (compute_type : string) : transcriber :=
  {| model_size := model_size;
     device := device;
     language := normalize_language language;
     compute_type := compute_type;
     model := None;
     cpu_threads := pick_cpu_threads (cpu_count e) |}.

Definition self : M (transcriber * proc float) transcriber :=
  fun st => (st, Ok (fst st)).

(** The object after [self.model = h]. *)
Definition with_model (me : transcriber) (h : handle) : transcriber :=
  {| model_size := model_size me; device := device me;
     language := language me; compute_type := compute_type me;
     model := Some h; cpu_threads := cpu_threads me |}.

(** [self.model = h] *)
Definition set_model (h : handle) : M (transcriber * proc float) unit :=
  modify (fun st => (with_model (fst st) h, snd st)).

(** The arguments [load_model] gives to [WhisperModel]. *)
Definition load_args_of (e : env float) (me : transcriber) : load_args :=
  {| la_model_size := model_size me;
     la_device := device me;
     la_compute_type := compute_type me;
     la_cpu_threads := cpu_threads me;
     la_download_root := expanduser e "~/.cache/faster-whisper";
     la_local_files_only := false |}.

Definition load_model (e : env float) : M (transcriber * proc float) unit :=
  try_except
    (me <- self ;;
     lift (logger_info ("Loading Whisper model: " +:+ model_size me)) ;;
     start_time <- lift (time_time e) ;;
     h <- lift (WhisperModel e (load_args_of e me)) ;;
     set_model h ;;
     t <- lift (time_time e) ;;
     let load_time := fsub t start_time in
     lift (logger_info ("Model loaded in " +:+ format_2f load_time +:+ "s")))
    (except_Exception (fun ex =>
       lift (logger_error ("Failed to load model: " +:+ str_exn ex)) ;;
       raise ex)).

(** The value of the ["language"] entry:
    [info.language if hasattr(info, 'language') else self.language]. *)
Definition result_language (i : info) (configured : option string) : json float :=
  match info_language i with
  | Some l => JStr l
  | None => match configured with Some l => JStr l | None => JNull end
  end.

Definition transcribe_file (e : env float) (audio_path : string)
    : M (transcriber * proc float) (list (string * json float)) :=
  found <- lift (os_path_exists e audio_path) ;;
  (if negb found
   then raise (Exception "FileNotFoundError" ("Audio file not found: " +:+ audio_path))
   else ret tt) ;;
  me <- self ;;
  (match model me with
   | None => load_model e
   | Some _ => ret tt
   end) ;;
  try_except
    (lift (logger_info ("Transcribing: " +:+ PyPath.basename audio_path)) ;;
     start_time <- lift (time_time e) ;;
     me <- self ;;
     r <- lift (model_transcribe e (model me) audio_path (language me)) ;;
     let segments := fst r in
     let info := snd r in
     acc <- lift (iterate segments) ;;
     let full_text := PyStr.strip (fst acc) in
     let segment_count := snd acc in
     t <- lift (time_time e) ;;
     let transcription_time := fsub t start_time in
     size <- lift (os_path_getsize e audio_path) ;;
     let result :=
       [("text", JStr full_text);
        ("language", result_language info (language me));
        ("duration", JFloat transcription_time);
        ("segments", JInt segment_count);
        ("model_size", JStr (model_size me));
        ("file_size_mb", JFloat (size_mb size))] in
     lift (logger_info ("Transcription completed in "
                        +:+ format_2f transcription_time +:+ "s")) ;;
     lift (logger_info ("Text length: " +:+ pretty (PyStr.len full_text)
                        +:+ " chars, Segments: " +:+ pretty segment_count)) ;;
     ret result)
    (except_Exception (fun ex =>
       lift (logger_error ("Transcription failed: " +:+ str_exn ex)) ;;
       raise ex)).

End Methods.

End FasterWhisperTranscriber.

Import FasterWhisperTranscriber.

Section CommandLine.
Context {float : Type} `{PyFloat float}.

Definition valid_extensions : gset string :=
  {[ ".mp3"; ".wav"; ".m4a"; ".ogg"; ".flac"; ".aac" ]}.

Definition validate_audio_file (e : env float) (file_path : string)
    : M (proc float) bool :=
  found <- os_path_exists e file_path ;;
  if negb found then ret false else
  size <- os_path_getsize e file_path ;;
  if size <? 1024 then ret false else
  let file_ext := PyStr.lower (PyPath.suffix file_path) in
  ret (bool_decide (file_ext ∈ valid_extensions)).

(** The namespace [parser.parse_args()] returns. *)
Record args : Type := {
  audio_file : string;
  args_model : string;
  args_language : string;
  args_device : string;
  verbose : bool
}.

Definition error_object (msg : string) : json float := JObj [("error", JStr msg)].

(** The body of [main] after [parse_args]. *)
Definition main (e : env float) (a : args) : M (proc float) unit :=
  (if verbose a then setLevel INFO else ret tt) ;;
  try_except
    (valid <- validate_audio_file e (audio_file a) ;;
     (if negb valid
      then print_json true
             (error_object ("Invalid or missing audio file: " +:+ audio_file a)) ;;
           sys_exit 1
      else ret tt) ;;
     let transcriber :=
       __init__ e (args_model a) (args_device a)
         (if String.eqb (args_language a) "auto" then None else Some (args_language a))
         "int8" in
     result <- with_object transcriber (transcribe_file e (audio_file a)) ;;
     print_json false (JObj result))
    (fun ex =>
       match ex with
       | KeyboardInterrupt =>
           Some (print_json true (error_object "Transcription cancelled by user") ;;
                 sys_exit 1)
       | Exception _ _ =>
           Some (print_json true
                   (error_object ("Transcription failed: " +:+ str_exn ex)) ;;
                 sys_exit 1)
       | SystemExit _ => None
       end).

(** What [parser.parse_args()] does with a command line: it returns the
    namespace, or it ends the process itself, with status 0 after
    printing the help text and status 2 after a usage error. *)
Inductive parsed : Type :=
| Parsed (a : args)
| ParserExit (status : Z) (printed : list string).

(** A finished process, as its parent sees it. *)
Record completed : Type := {
  out : list (line float);
  err : list log_record;
  returncode : Z;
  made : list call
}.

(** The state at start-up: [logging.basicConfig(level=logging.WARNING)]. *)
Definition start : proc float :=
  {| stdout := []; stderr := []; root_level := WARNING; calls := []; clock := 0 |}.

(** The exit status of the interpreter for the way [main] ended: an
    uncaught exception ends it with status 1, an uncaught interrupt as
    the signal does. *)
Definition exit_status (r : res unit) : Z :=
  match r with
  | Ok _ => 0
  | Raise (SystemExit c) => c
  | Raise KeyboardInterrupt => 130
  | Raise (Exception _ _) => 1
  end.

Definition run_cli (e : env float) (p : parsed) : completed :=
  match p with
  | ParserExit status printed =>
      {| out := map Text printed; err := []; returncode := status; made := [] |}
  | Parsed a =>
      let (s, r) := main e a start in
      {| out := stdout s; err := stderr s; returncode := exit_status r;
         made := calls s |}
  end.

(** Calls of [transcribe_file] on one object, one after the other, each
    with the environment of its moment; the caller goes on after a
    failure. *)
Fixpoint transcribe_each (requests : list (env float * string))
    (st : transcriber * proc float) : transcriber * proc float :=
  match requests with
  | [] => st
  | (e, audio_path) :: rest =>
      transcribe_each rest (fst (transcribe_file e audio_path st))
  end.

End CommandLine.

Arguments completed : clear implicits.

(** ** [test_transcription.py]

    The state is the set of paths that exist. What the harness prints
    is left out, except that the report of a successful run can raise. *)

Module Harness.

(** How [subprocess.run] ends. *)
Inductive ran : Type :=
| Returned (returncode : Z) (child_stdout : string)
| TimeoutExpired
| RunFailed (cls : string) (msg : string)
| RunInterrupted.

Record world (float : Type) : Type := {
  (** [Path("fasterWhisper.py").exists()] *)
  script_exists : bool;
  (** the run with [--help] *)
  help_run : ran;
  (** [os.system("which espeak > /dev/null 2>&1")] *)
  which_espeak : Z;
  (** whether [espeak ... -w] leaves the wave file behind *)
  espeak_writes : bool;
  (** the run on the test file *)
  transcribe_run : ran;
  (** what the child and the rest of the system do to the files meanwhile *)
  during_run : gset string -> gset string;
  (** [json.loads], [None] for a [JSONDecodeError] *)
  json_loads : string -> option (json float);
  (** what [import faster_whisper] raises, [None] when the module loads *)
  import_faster_whisper : option exn
}.

Arguments script_exists {float} w.
Arguments help_run {float} w.
Arguments which_espeak {float} w.
Arguments espeak_writes {float} w.
Arguments transcribe_run {float} w.
Arguments during_run {float} w.
Arguments json_loads {float} w.
Arguments import_faster_whisper {float} w.

Section Defs.
Context {float : Type}.

Definition test_file : string := "/tmp/test_audio.wav".

Definition test_text : string := "This is a test of the Meiko transcription system.".

Definition path_exists (p : string) : M (gset string) bool :=
  fun files => (files, Ok (bool_decide (p ∈ files))).

(** [os.remove(p)], in a directory where the user may remove files. *)
Definition os_remove (p : string) : M (gset string) unit :=
  fun files =>
    if bool_decide (p ∈ files) then (files ∖ {[ p ]}, Ok tt)
    else (files, Raise (Exception "FileNotFoundError"
                          ("[Errno 2] No such file or directory: '" +:+ p +:+ "'"))).

(** [subprocess.run(...)]: the completed process, or an exception. *)
Definition subprocess_run (r : ran) : M (gset string) (Z * string) :=
  match r with
  | Returned rc o => ret (rc, o)
  | TimeoutExpired => raise (Exception "TimeoutExpired" "timed out after 60 seconds")
  | RunFailed cls msg => raise (Exception cls msg)
  | RunInterrupted => raise KeyboardInterrupt
  end.

(** The clause [except cls:] for an exact class. *)
Definition except_class {A : Type} (cls : string) (h : M (gset string) A)
    : exn -> option (M (gset string) A) :=
  fun e =>
    match e with
    | Exception c _ => if String.eqb c cls then Some h else None
    | _ => None
    end.

(** The result is [Some r] when the body reached its [return]. *)
Definition create_test_audio (w : world float) : M (gset string) (option string * string) :=
  made <- try_except
    (if which_espeak w =? 0
     then modify (fun files : gset string =>
                    if espeak_writes w then files ∪ {[ test_file ]} else files) ;;
          found <- path_exists test_file ;;
          if found then ret (Some (Some test_file, test_text)) else ret None
     else ret None)
    (fun _ => Some (ret None)) ;;
  match made with
  | Some r => ret r
  | None => ret (None, test_text)
  end.

(** The integers [float] converts: the conversion rounds to the nearest
    double, and the first integer it refuses is [2**1024 - 2**970],
    half way between the largest double and [2**1024]. *)
Definition converts_to_float (n : Z) : bool := Z.abs n <? 2 ^ 1024 - 2 ^ 970.

(** Whether [f"{v:.2f}"] formats [v]: a float, a bool, or an integer
    that converts to a float. *)
Definition formats_2f (v : json float) : bool :=
  match v with
  | JInt n => converts_to_float n
  | JFloat _ | JBool _ => true
  | _ => false
  end.

(** The four report lines after [json.loads]: they call [output.get]
    and format the duration. *)
Definition report (output : json float) : M (gset string) unit :=
  match output with
  | JObj kv =>
      match default (JInt 0) (dict_get "duration" kv) with
      | JStr _ => raise (Exception "ValueError" "Unknown format code 'f' for object of type 'str'")
      | JInt n => if formats_2f (JInt n) then ret tt
                  else raise (Exception "OverflowError" "int too large to convert to float")
      | v => if formats_2f v then ret tt
             else raise (Exception "TypeError" "unsupported format string passed to __format__")
      end
  | _ => raise (Exception "AttributeError" "object has no attribute 'get'")
  end.

(** [Some b] stands for [return b], [None] for falling through. *)
Definition run_test (w : world float) (f : string) : M (gset string) (option bool) :=
  done <- try_except
    (modify (during_run w) ;;
     result <- subprocess_run (transcribe_run w) ;;
     if fst result =? 0
     then try_except
            (match json_loads w (snd result) with
             | None => raise (Exception "JSONDecodeError" "Expecting value")
             | Some output =>
                 report output ;;
                 os_remove f ;;
                 ret (Some true)
             end)
            (except_class "JSONDecodeError" (ret None))
     else ret None)
    (except_Exception (fun _ => ret None)) ;;
  match done with
  | Some b => ret (Some b)
  | None =>
      still <- path_exists f ;;
      (if still then os_remove f else ret tt) ;;
      ret None
  end.

(** [ImportError] and its built-in subclass. *)
Definition is_ImportError (e : exn) : bool :=
  match e with
  | Exception c _ => String.eqb c "ImportError" || String.eqb c "ModuleNotFoundError"
  | _ => false
  end.

(** The clause [except ImportError:]. *)
Definition except_ImportError {A : Type} (h : M (gset string) A)
    : exn -> option (M (gset string) A) :=
  fun e => if is_ImportError e then Some h else None.

(** The check of the requirements that ends [test_transcription]: the
    version of Python is only printed, and [import faster_whisper] runs
    under [except ImportError] alone. *)
Definition requirements_check (w : world float) : M (gset string) unit :=
  try_except
    (match import_faster_whisper w with
     | None => ret tt
     | Some e => raise e
     end)
    (except_ImportError (ret tt)).

Definition test_transcription (w : world float) : M (gset string) bool :=
  if negb (script_exists w) then ret false else
  helped <- try_except
    (result <- subprocess_run (help_run w) ;;
     if fst result =? 0 then ret None else ret (Some false))
    (except_Exception (fun _ => ret (Some false))) ;;
  match helped with
  | Some b => ret b
  | None =>
      created <- create_test_audio w ;;
      returned <-
        (match fst created with
         | Some f =>
             found <- path_exists f ;;
             if found then run_test w f else ret None
         | None => ret None
         end) ;;
      match returned with
      | Some b => ret b
      | None => requirements_check w ;; ret false
      end
  end.

Definition main (w : world float) : M (gset string) Z :=
  passed <- test_transcription w ;;
  if passed then ret 0 else ret 1.

(** The test file of a run, when the run got as far as synthesizing one. *)
Definition synthesized (w : world float) (files : gset string) : option string :=
  if negb (script_exists w) then None else
  match help_run w with
  | Returned 0 _ =>
      match create_test_audio w files with
      | (_, Ok (Some f, _)) => Some f
      | _ => None
      end
  | _ => None
  end.

End Defs.

End Harness.

(** ** Observations and closed forms *)

Section Observations.
Context {float : Type} `{PyFloat float}.

(** The object [main] builds. *)
Definition transcriber_of (e : env float) (a : args) : transcriber :=
  __init__ e (args_model a) (args_device a)
    (if String.eqb (args_language a) "auto" then None else Some (args_language a))
    "int8".

(** The state in which [main] enters its [try] block. *)
Definition entered (a : args) : proc float :=
  fst ((if verbose a then setLevel INFO else ret tt) start).

(** The validation [main] runs, and the transcription that follows it. *)
Definition validated (e : env float) (a : args) : proc float * res bool :=
  validate_audio_file e (audio_file a) (entered a).

Definition transcribed (e : env float) (a : args)
    : (transcriber * proc float) * res (list (string * json float)) :=
  transcribe_file e (audio_file a) (transcriber_of e a, fst (validated e a)).

(** Closed form of the answer of [validate_audio_file]. *)
Definition valid_audio (e : env float) (file_path : string) : bool :=
  match fs e !! file_path with
  | None => false
  | Some n =>
      if n <? 1024 then false
      else bool_decide (PyStr.lower (PyPath.suffix file_path) ∈ valid_extensions)
  end.

(** Closed form of the calls [validate_audio_file] makes. *)
Definition validation_calls (e : env float) (file_path : string) : list call :=
  match fs e !! file_path with
  | None => [CallExists file_path]
  | Some _ => [CallExists file_path; CallGetsize file_path]
  end.

(** The handle a call of [transcribe_file] works with: the one the
    object holds, else the answer of [WhisperModel]. *)
Definition handle_for (e : env float) (me : transcriber) : fault + handle :=
  match model me with
  | Some h => inr h
  | None => whisper_model e (load_args_of e me)
  end.

(** The clock when the decode call starts: loading reads it twice. *)
Definition decode_clock (me : transcriber) (s : proc float) : nat :=
  match model me with
  | Some _ => clock s
  | None => S (S (clock s))
  end.

(** Closed form of the result of [transcribe_file]. *)
Definition transcription (e : env float) (audio_path : string)
    (me : transcriber) (k : nat) : res (list (string * json float)) :=
  match fs e !! audio_path with
  | None => Raise (Exception "FileNotFoundError" ("Audio file not found: " +:+ audio_path))
  | Some size =>
      match handle_for e me with
      | inl f => Raise (exn_of_fault f)
      | inr h =>
          match whisper_transcribe e h audio_path (language me) with
          | inl f => Raise (exn_of_fault f)
          | inr r =>
              match for_segments (yielded (fst r)) (stops_with (fst r)) "" 0 with
              | Raise ex => Raise ex
              | Ok acc =>
                  Ok [("text", JStr (PyStr.strip (fst acc)));
                      ("language", result_language (snd r) (language me));
                      ("duration", JFloat (fsub (now e (S k)) (now e k)));
                      ("segments", JInt (snd acc));
                      ("model_size", JStr (model_size me));
                      ("file_size_mb", JFloat (size_mb size))]
              end
          end
      end
  end.

(** Closed form of the calls one [transcribe_file] makes. *)
Definition new_calls (e : env float) (audio_path : string) (me : transcriber)
    : list call :=
  CallExists audio_path ::
  match fs e !! audio_path with
  | None => []
  | Some _ =>
      match model me with
      | Some _ => []
      | None =>
          [CallTime; CallLoad (load_args_of e me) (whisper_model e (load_args_of e me))]
          ++ match whisper_model e (load_args_of e me) with
             | inr _ => [CallTime]
             | inl _ => []
             end
      end
      ++ match handle_for e me with
         | inl _ => []
         | inr h =>
             [CallTime; CallDecode h audio_path (language me)]
             ++ match whisper_transcribe e h audio_path (language me) with
                | inl _ => []
                | inr r =>
                    match for_segments (yielded (fst r)) (stops_with (fst r)) "" 0 with
                    | Raise _ => []
                    | Ok _ => [CallTime; CallGetsize audio_path]
                    end
                end
         end
  end.

(** Closed form of the object after one [transcribe_file]. *)
Definition after_call (e : env float) (audio_path : string) (me : transcriber)
    : transcriber :=
  match model me, fs e !! audio_path with
  | None, Some _ =>
      match whisper_model e (load_args_of e me) with
      | inr h => with_model me h
      | inl _ => me
      end
  | _, _ => me
  end.

(** The printed lines are one JSON object and nothing else. *)
Definition one_json_object (c : completed float) : Prop :=
  exists ensure_ascii kv, out c = [Json ensure_ascii (JObj kv)].

(** The same command line with or without [--verbose]. *)
Definition with_verbose (a : args) (v : bool) : args :=
  {| audio_file := audio_file a; args_model := args_model a;
     args_language := args_language a; args_device := args_device a;
     verbose := v |}.

(** The same host, file system and library, with another clock. *)
Definition with_clock (e : env float) (now' : nat -> float) : env float :=
  {| fs := fs e; cpu_count := cpu_count e; expanduser := expanduser e;
     now := now';
     whisper_model := whisper_model e;
     whisper_transcribe := whisper_transcribe e |}.

(** Two outputs that are the same lines, or one result each with the
    same keys and the same value under every key but [duration]. *)
Definition same_but_duration (l1 l2 : list (line float)) : Prop :=
  l1 = l2
  \/ exists d1 d2,
       l1 = [Json false (JObj d1)] /\ l2 = [Json false (JObj d2)]
       /\ keys d1 = keys d2
       /\ forall k, k <> "duration" -> dict_get k d1 = dict_get k d2.

End Observations.

(** The life of the [model] field read off the calls: [track held tr]
    follows the handle held, and is [None] as soon as the model is
    loaded while a handle is held, or a decode call is made with a
    handle that is not the one held. *)
Fixpoint track (held : option handle) (tr : list call) : option (option handle) :=
  match tr with
  | [] => Some held
  | CallLoad _ answer :: rest =>
      match held with
      | Some _ => None
      | None => track (match answer with inr h => Some h | inl _ => None end) rest
      end
  | CallDecode h _ _ :: rest =>
      match held with
      | Some h' => if Nat.eqb h h' then track held rest else None
      | None => None
      end
  | _ :: rest => track held rest
  end.

(** A call of [WhisperModel] that returned a handle. *)
Definition created_handle (c : call) : bool :=
  match c with
  | CallLoad _ (inr _) => true
  | _ => false
  end.

(** Comparing as [x.lower() == y.lower()]. *)
Definition eq_nocase (x y : string) : Prop := PyStr.lower x = PyStr.lower y.

(** The allow-list as the specification writes it, without dots. *)
Definition allow_list : list string := ["mp3"; "wav"; "m4a"; "ogg"; "flac"; "aac"].

(** The extension of the path, dot included, is one of the allow-list
    up to case. *)
Definition extension_allowed (p : string) : Prop :=
  exists x, In x allow_list /\ eq_nocase (PyPath.suffix p) ("." +:+ x).

(** Joining as the specification words it: a single separating space
    between consecutive texts. *)
Definition join_with_space (texts : list string) : string := String.concat " " texts.

(** The field names the specification gives to TranscriptionResult. *)
Definition TranscriptionResult_fields : list string :=
  ["text"; "language"; "duration_seconds"; "segment_count"; "model_size";
   "file_size_mb"].

(** ** Reading a string *)

(** Whether the string begins, or ends, with a whitespace character,
    and whether it holds nothing else. *)
Definition head_space (s : string) : bool :=
  match s with
  | EmptyString => false
  | String c _ => PyStr.is_space c
  end.

Fixpoint last_space (s : string) : bool :=
  match s with
  | EmptyString => false
  | String c EmptyString => PyStr.is_space c
  | String _ r => last_space r
  end.

Fixpoint all_space (s : string) : bool :=
  match s with
  | EmptyString => true
  | String c r => PyStr.is_space c && all_space r
  end.

(** ** Sample inputs *)

(** A stand-in for floats: hundredths, as integers. *)
#[export] Instance hundredths : PyFloat Z := {|
  fsub := Z.sub;
  size_mb n := n * 100 / 1048576;
  format_2f := pretty
|}.

Definition hello : generator :=
  {| yielded := [{| text := " Hello" |}; {| text := " world." |}];
     stops_with := None |}.

(** A host with one valid recording, one short file and a text file. *)
Definition pi : env Z := {|
  fs := {[ "/tmp/a.WAV" := 2048; "/tmp/short.wav" := 500; "/tmp/notes.txt" := 4096 ]};
  cpu_count := Some 4;
  expanduser p := "/home/pi/.cache/faster-whisper";
  now n := Z.of_nat n * 150;
  whisper_model a := inr 1%nat;
  whisper_transcribe h p l := inr (hello, {| info_language := Some "en" |})
|}.

Definition cli (path language : string) (v : bool) : args :=
  {| audio_file := path; args_model := "tiny"; args_language := language;
     args_device := "cpu"; verbose := v |}.

(** A command line without the audio file, and one asking for help. *)
Definition usage_error : parsed := ParserExit 2 [].

Definition help_request : parsed :=
  ParserExit 0 ["usage: fasterWhisper.py [-h] [--model {tiny,base,small}] audio_file"].

(** A harness run in which espeak writes the file and the child prints
    something [json.loads] rejects. *)
Definition bad_json_run : Harness.world Z := {|
  Harness.script_exists := true;
  Harness.help_run := Harness.Returned 0 "usage: fasterWhisper.py";
  Harness.which_espeak := 0;
  Harness.espeak_writes := true;
  Harness.transcribe_run := Harness.Returned 0 "Traceback";
  Harness.during_run := fun files => files;
  Harness.json_loads := fun _ => None;
  Harness.import_faster_whisper := None
|}.

(** The transcriber of a run on the valid recording, and what that run
    returns. *)
Definition pi_transcriber : FasterWhisperTranscriber.transcriber :=
  transcriber_of pi (cli "/tmp/a.WAV" "en" false).

Definition hello_result : list (string * json Z) :=
  [("text", JStr "Hello  world."); ("language", JStr "en");
   ("duration", JFloat 150); ("segments", JInt 2);
   ("model_size", JStr "tiny"); ("file_size_mb", JFloat 0)].

(** The same host with a library that cannot load its weights, with
    one whose decoding fails after a first segment, and with a
    recording of silence. *)
Definition pi_load_fails : env Z := {|
  fs := fs pi;
  cpu_count := cpu_count pi;
  expanduser := expanduser pi;
  now := now pi;
  whisper_model a := inl (Failed "RuntimeError" "no weights");
  whisper_transcribe := whisper_transcribe pi
|}.

Definition pi_decode_fails : env Z := {|
  fs := fs pi;
  cpu_count := cpu_count pi;
  expanduser := expanduser pi;
  now := now pi;
  whisper_model := whisper_model pi;
  whisper_transcribe h p l :=
    inr ({| yielded := [{| text := " Hello" |}];
            stops_with := Some (Failed "RuntimeError" "bad frame") |},
         {| info_language := Some "en" |})
|}.

Definition pi_silence : env Z := {|
  fs := fs pi;
  cpu_count := cpu_count pi;
  expanduser := expanduser pi;
  now := now pi;
  whisper_model := whisper_model pi;
  whisper_transcribe h p l :=
    inr ({| yielded := [{| text := " " |}; {| text := "" |}]; stops_with := None |},
         {| info_language := Some "en" |})
|}.

(** The same host with a slower clock. *)
Definition pi_other_clock : env Z := with_clock pi (fun n => Z.of_nat n * 151).

(** A harness run that passes, one on a host with neither espeak nor
    faster-whisper, and one on a host without espeak whose
    faster-whisper fails to load a shared library. *)
Definition passing_run : Harness.world Z := {|
  Harness.script_exists := true;
  Harness.help_run := Harness.Returned 0 "usage: fasterWhisper.py";
  Harness.which_espeak := 0;
  Harness.espeak_writes := true;
  Harness.transcribe_run := Harness.Returned 0 "{}";
  Harness.during_run := fun files => files;
  Harness.json_loads := fun _ => Some (JObj []);
  Harness.import_faster_whisper := None
|}.


Definition broken_import_run : Harness.world Z := {|
  Harness.script_exists := true;
  Harness.help_run := Harness.Returned 0 "usage: fasterWhisper.py";
  Harness.which_espeak := 256;
  Harness.espeak_writes := false;
  Harness.transcribe_run := Harness.Returned 0 "{}";
  Harness.during_run := fun files => files;
  Harness.json_loads := fun _ => Some (JObj []);
  Harness.import_faster_whisper :=
    Some (Exception "OSError" "libctranslate2.so: cannot open shared object file")
|}.

(** * Properties *)

(** ** Strings *)

Example suffix_upper : PyPath.suffix "/tmp/Clip.WAV" = ".WAV".
Proof. reflexivity. Qed.

Example suffix_hidden : PyPath.suffix "dir/.wav" = "".
Proof. reflexivity. Qed.

Example suffix_trailing_slash : PyPath.suffix "a/b.tar.mp3/" = ".mp3".
Proof. reflexivity. Qed.

Example strip_both : PyStr.strip "  a b  " = "a b".
Proof. reflexivity. Qed.

Example lower_mixed : PyStr.lower ".Mp3" = ".mp3".
Proof. reflexivity. Qed.

Lemma append_cons (c : ascii) (a b : string) : String c a +:+ b = String c (a +:+ b).
Proof. reflexivity. Qed.

Lemma append_empty_l (a : string) : "" +:+ a = a.
Proof. reflexivity. Qed.

Lemma append_assoc (a b c : string) : (a +:+ b) +:+ c = a +:+ (b +:+ c).
Proof.
  induction a as [|x a IH]; [reflexivity|].
  rewrite !append_cons. now rewrite IH.
Qed.

Lemma append_empty_r (a : string) : a +:+ "" = a.
Proof.
  induction a as [|x a IH]; [reflexivity|].
  rewrite append_cons. now rewrite IH.
Qed.

Lemma lstrip_app_space (x : string) :
  PyStr.lstrip (x +:+ " ") =
  match PyStr.lstrip x with
  | EmptyString => EmptyString
  | y => y +:+ " "
  end.
Proof.
  induction x as [|c r IH]; [reflexivity|].
  rewrite append_cons. simpl.
  destruct (PyStr.is_space c); [exact IH | reflexivity].
Qed.

Lemma rstrip_app_space (y : string) : PyStr.rstrip (y +:+ " ") = PyStr.rstrip y.
Proof.
  induction y as [|c r IH]; [reflexivity|].
  rewrite append_cons. simpl. now rewrite IH.
Qed.

Lemma strip_app_space (x : string) : PyStr.strip (x +:+ " ") = PyStr.strip x.
Proof.
  unfold PyStr.strip. rewrite lstrip_app_space.
  destruct (PyStr.lstrip x) as [|c r] eqn:E; [reflexivity|].
  apply rstrip_app_space.
Qed.

(** The text the loop has added after the segments [segs]. *)
Lemma for_segments_completes (segs : list segment) (acc : string) (n : Z) :
  for_segments segs None acc n =
  Ok (acc +:+ fold_right (fun seg r => text seg +:+ " " +:+ r) "" segs,
      n + Z.of_nat (length segs)).
Proof.
  revert acc n. induction segs as [|seg rest IH]; intros acc n; simpl.
  - rewrite append_empty_r. do 2 f_equal. lia.
  - rewrite IH. rewrite !append_assoc. do 2 f_equal. lia.
Qed.

Lemma for_segments_raises (segs : list segment) (f : fault) (acc : string) (n : Z) :
  for_segments segs (Some f) acc n = Raise (exn_of_fault f).
Proof.
  revert acc n. induction segs as [|seg rest IH]; intros acc n; simpl; [reflexivity | apply IH].
Qed.

Lemma spaced_is_join (segs : list segment) :
  fold_right (fun seg r => text seg +:+ " " +:+ r) "" segs =
  match segs with
  | [] => ""
  | _ => join_with_space (map text segs) +:+ " "
  end.
Proof.
  induction segs as [|seg rest IH]; [reflexivity|].
  simpl fold_right. rewrite IH. unfold join_with_space.
  destruct rest as [|seg' rest']; simpl; [reflexivity|].
  now rewrite !append_assoc.
Qed.

Lemma strip_spaced (segs : list segment) :
  PyStr.strip (fold_right (fun seg r => text seg +:+ " " +:+ r) "" segs) =
  PyStr.strip (join_with_space (map text segs)).
Proof.
  rewrite spaced_is_join. destruct segs; [reflexivity | apply strip_app_space].
Qed.

(** *** Stripping *)

Lemma rstrip_idempotent (s : string) : PyStr.rstrip (PyStr.rstrip s) = PyStr.rstrip s.
Proof.
  induction s as [|c r IH]; [reflexivity|].
  cbn [PyStr.rstrip].
  destruct (PyStr.rstrip r) as [|c' r'] eqn:Er.
  - destruct (PyStr.is_space c) eqn:Ec; [reflexivity|].
    cbn [PyStr.rstrip]. now rewrite Ec.
  - cbn [PyStr.rstrip] in IH |- *. now rewrite IH.
Qed.

Lemma rstrip_last_space (s : string) : last_space (PyStr.rstrip s) = false.
Proof.
  induction s as [|c r IH]; [reflexivity|].
  cbn [PyStr.rstrip].
  destruct (PyStr.rstrip r) as [|c' r'] eqn:Er.
  - destruct (PyStr.is_space c) eqn:Ec; [reflexivity|]. cbn. exact Ec.
  - exact IH.
Qed.

Lemma lstrip_head_space (s : string) : head_space (PyStr.lstrip s) = false.
Proof.
  induction s as [|c r IH]; [reflexivity|].
  cbn [PyStr.lstrip]. destruct (PyStr.is_space c) eqn:Ec; [exact IH|].
  cbn. exact Ec.
Qed.

Lemma rstrip_keeps_head (s : string) :
  head_space s = false -> head_space (PyStr.rstrip s) = false.
Proof.
  destruct s as [|c r]; [reflexivity|].
  cbn [head_space PyStr.rstrip]. intros Ec.
  destruct (PyStr.rstrip r); [now rewrite Ec | exact Ec].
Qed.

Lemma lstrip_fixed (s : string) : head_space s = false -> PyStr.lstrip s = s.
Proof.
  destruct s as [|c r]; [reflexivity|].
  cbn [head_space PyStr.lstrip]. now intros ->.
Qed.

Lemma strip_head_last (s : string) :
  head_space (PyStr.strip s) = false /\ last_space (PyStr.strip s) = false.
Proof.
  unfold PyStr.strip. split; [|apply rstrip_last_space].
  apply rstrip_keeps_head, lstrip_head_space.
Qed.

Lemma strip_idempotent (s : string) : PyStr.strip (PyStr.strip s) = PyStr.strip s.
Proof.
  unfold PyStr.strip at 1.
  rewrite lstrip_fixed by apply strip_head_last.
  unfold PyStr.strip. apply rstrip_idempotent.
Qed.

Lemma lstrip_all_space (s : string) : all_space s = true -> PyStr.lstrip s = "".
Proof.
  induction s as [|c r IH]; [reflexivity|].
  cbn [all_space PyStr.lstrip]. intros Hs. apply andb_prop in Hs.
  destruct Hs as [-> Hr]. now apply IH.
Qed.

Lemma all_space_app (a b : string) :
  all_space (a +:+ b) = all_space a && all_space b.
Proof.
  induction a as [|c r IH]; [reflexivity|].
  rewrite append_cons. cbn [all_space]. rewrite IH. now rewrite andb_assoc.
Qed.

Lemma all_space_spaced (segs : list segment) :
  Forall (fun seg => all_space (text seg) = true) segs ->
  all_space (fold_right (fun seg r => text seg +:+ " " +:+ r) "" segs) = true.
Proof.
  induction 1 as [|seg rest Hseg _ IH]; [reflexivity|].
  cbn [fold_right]. rewrite !all_space_app, Hseg, IH. reflexivity.
Qed.

(** *** The last dot of a name *)

Lemma rfind_lower (c : ascii) (s : string) : -1 <= PyStr.rfind c s.
Proof.
  induction s as [|d r IH]; cbn [PyStr.rfind]; [lia|].
  destruct (Z.leb_spec 0 (PyStr.rfind c r)); [lia|].
  destruct (Ascii.eqb c d); lia.
Qed.

Lemma rfind_split (c : ascii) (s : string) :
  0 <= PyStr.rfind c s ->
  exists pre post,
    s = pre +:+ String c post
    /\ PyStr.rfind c s = PyStr.len pre
    /\ PyStr.rfind c post = -1.
Proof.
  induction s as [|d r IH]; cbn [PyStr.rfind]; [lia|].
  destruct (Z.leb_spec 0 (PyStr.rfind c r)) as [Hi|Hi].
  - intros _. destruct (IH Hi) as (pre & post & -> & Hlen & Hpost).
    exists (String d pre), post. rewrite append_cons. split; [reflexivity|].
    split; [|exact Hpost]. rewrite Hlen. unfold PyStr.len. cbn [String.length]. lia.
  - destruct (Ascii.eqb_spec c d) as [<-|Hne]; [|lia].
    intros _. exists "", r. split; [reflexivity|]. split; [reflexivity|].
    pose proof (rfind_lower c r). lia.
Qed.

Lemma length_append (a b : string) :
  String.length (a +:+ b) = (String.length a + String.length b)%nat.
Proof.
  induction a as [|c r IH]; [reflexivity|].
  rewrite append_cons. cbn [String.length]. now rewrite IH.
Qed.

Lemma substring_whole (t : string) : String.substring 0 (String.length t) t = t.
Proof. induction t as [|c r IH]; [reflexivity|]. cbn. now rewrite IH. Qed.

Lemma substring_skip (pre t : string) (n : nat) :
  String.substring (String.length pre) n (pre +:+ t) = String.substring 0 n t.
Proof.
  induction pre as [|c r IH]; [reflexivity|].
  rewrite append_cons. cbn [String.length String.substring]. exact IH.
Qed.

Lemma slice_from_append (pre t : string) :
  PyStr.slice_from (PyStr.len pre) (pre +:+ t) = t.
Proof.
  unfold PyStr.slice_from, PyStr.len. rewrite Nat2Z.id, length_append.
  replace (String.length pre + String.length t - String.length pre)%nat
    with (String.length t) by lia.
  rewrite substring_skip. apply substring_whole.
Qed.

(** A suffix is the last dot of the name and what follows it, and there
    is something on both sides of that dot. *)
Lemma suffix_shape (p : string) :
  PyPath.suffix p = ""
  \/ exists stem ext,
       PyPath.name p = stem +:+ "." +:+ ext
       /\ stem <> "" /\ ext <> ""
       /\ PyStr.rfind "." ext = -1
       /\ PyPath.suffix p = "." +:+ ext.
Proof.
  unfold PyPath.suffix.
  destruct (Z.ltb_spec 0 (PyStr.rfind "." (PyPath.name p))) as [Hpos|Hno];
    [|now left].
  destruct (Z.ltb_spec (PyStr.rfind "." (PyPath.name p)) (PyStr.len (PyPath.name p) - 1))
    as [Hlast|Hno]; [|now left].
  right. cbn [andb].
  destruct (rfind_split "." (PyPath.name p)) as (pre & post & Hn & Hi & Hpost); [lia|].
  rewrite Hi in Hpos, Hlast |- *. rewrite Hn in Hlast |- *. exists pre, post.
  split; [reflexivity|].
  split; [intros ->; unfold PyStr.len in Hpos; cbn in Hpos; lia|].
  split; [|split; [exact Hpost | apply slice_from_append]].
  intros ->. unfold PyStr.len in Hlast. rewrite length_append in Hlast.
  cbn [String.length] in Hlast. lia.
Qed.

Lemma lower_dot (x : string) : PyStr.lower ("." +:+ x) = "." +:+ PyStr.lower x.
Proof. reflexivity. Qed.

(** ** The wrapper *)

Section Wrapper.
Context {float : Type} `{PyFloat float}.

Ltac py_unfold :=
  cbv [transcribe_file load_model validate_audio_file main
       bind ret raise modify try_except except_Exception lift with_object
       self set_model with_model logger_info logger_error log print_json setLevel sys_exit
       os_path_exists os_path_getsize time_time WhisperModel model_transcribe
       iterate record_call fst snd load_args_of exn_of_fault
       model_size device language compute_type model cpu_threads
       stdout stderr root_level calls clock negb].

Ltac py_case :=
  match goal with
  | |- context [fs ?e !! ?p] => destruct (fs e !! p) eqn:?
  | |- context [whisper_model ?e ?a] => destruct (whisper_model e a) as [[|? ?]|?] eqn:?
  | |- context [whisper_transcribe ?e ?h ?p ?l] =>
      destruct (whisper_transcribe e h p l) as [[|? ?]|[? ?]] eqn:?
  | |- context [for_segments ?a ?b ?c ?d] =>
      destruct (for_segments a b c d) as [[? ?]|[|?|? ?]] eqn:?
  end.

Ltac py_run tac :=
  let s := fresh "s" in
  let me := fresh "me" in
  intros ? ? me s;
  destruct s as [? ? ? ? ?], me as [? ? ? ? [?|] ?];
  py_unfold; repeat (py_case; try tac); try tac.

(** *** One call of [transcribe_file], in closed form *)

Lemma transcribe_file_result :
  forall (e : env float) (p : string) (me : transcriber) (s : proc float),
    snd (transcribe_file e p (me, s)) = transcription e p me (decode_clock me s).
Proof.
  unfold transcription, handle_for, decode_clock.
  py_run ltac:(reflexivity).
Qed.

Lemma transcribe_file_calls :
  forall (e : env float) (p : string) (me : transcriber) (s : proc float),
    calls (snd (fst (transcribe_file e p (me, s)))) = calls s ++ new_calls e p me.
Proof.
  unfold new_calls, handle_for.
  py_run ltac:(cbn [app]; rewrite <- ?app_assoc; reflexivity).
Qed.

Lemma transcribe_file_object :
  forall (e : env float) (p : string) (me : transcriber) (s : proc float),
    fst (fst (transcribe_file e p (me, s))) = after_call e p me.
Proof.
  unfold after_call.
  py_run ltac:(reflexivity).
Qed.

Lemma transcribe_file_stdout :
  forall (e : env float) (p : string) (me : transcriber) (s : proc float),
    stdout (snd (fst (transcribe_file e p (me, s)))) = stdout s.
Proof.
  py_run ltac:(reflexivity).
Qed.

(** *** The validator *)

Lemma validate_audio_file_result (e : env float) (p : string) (s : proc float) :
  snd (validate_audio_file e p s) = Ok (valid_audio e p).
Proof.
  unfold valid_audio. destruct s. py_unfold.
  destruct (fs e !! p) as [n|]; [|reflexivity].
  destruct (n <? 1024); reflexivity.
Qed.

Lemma validate_audio_file_state (e : env float) (p : string) (s : proc float) :
  fst (validate_audio_file e p s) =
  {| stdout := stdout s; stderr := stderr s; root_level := root_level s;
     calls := calls s ++ validation_calls e p;
     clock := clock s |}.
Proof.
  unfold validation_calls. destruct s. py_unfold.
  destruct (fs e !! p) as [n|]; [|reflexivity].
  destruct (n <? 1024); cbn [app]; rewrite <- app_assoc; reflexivity.
Qed.

Lemma valid_extension_iff (p : string) :
  PyStr.lower (PyPath.suffix p) ∈ valid_extensions <-> extension_allowed p.
Proof.
  unfold valid_extensions, extension_allowed, eq_nocase, allow_list.
  rewrite !elem_of_union, !elem_of_singleton. split.
  - intros [[[[[E|E]|E]|E]|E]|E]; rewrite E.
    + exists "mp3". simpl. tauto.
    + exists "wav". simpl. tauto.
    + exists "m4a". simpl. tauto.
    + exists "ogg". simpl. tauto.
    + exists "flac". simpl. tauto.
    + exists "aac". simpl. tauto.
  - intros [x [Hx E]]. simpl in Hx.
    destruct Hx as [<-|[<-|[<-|[<-|[<-|[<-|[]]]]]]]; rewrite E; simpl; tauto.
Qed.

(** C2: [validate_audio_file] returns [True] exactly when the path
    exists, its size is at least 1024 bytes and its extension is one of
    the allow-list up to case; so it returns [False] for a path that
    does not exist, for a file under 1024 bytes whatever its extension,
    and for an extension outside the allow-list. *)
Theorem validate_audio_file_iff (e : env float) (p : string) (s : proc float) :
  (snd (validate_audio_file e p s) = Ok true <->
   exists n, fs e !! p = Some n /\ 1024 <= n /\ extension_allowed p)
  /\ (fs e !! p = None -> snd (validate_audio_file e p s) = Ok false)
  /\ (forall n, fs e !! p = Some n -> n < 1024 ->
      snd (validate_audio_file e p s) = Ok false)
  /\ (~ extension_allowed p -> snd (validate_audio_file e p s) = Ok false).
Proof.
  rewrite validate_audio_file_result. unfold valid_audio.
  pose proof (valid_extension_iff p) as Hext.
  split; [split; [intros Hv | intros (m & Hm & Hle & Ha)]
         | split; [intros Hnone | split; [intros m Hm Hlt | intros Hno]]].
  - destruct (fs e !! p) as [n|]; [|discriminate].
    destruct (Z.ltb_spec n 1024) as [Hlt|Hge]; [discriminate|].
    exists n. repeat split; [assumption|].
    apply Hext. injection Hv as Hv. now apply bool_decide_eq_true in Hv.
  - rewrite Hm. destruct (Z.ltb_spec m 1024) as [Hlt|Hge]; [lia|].
    f_equal. apply bool_decide_eq_true. now apply Hext.
  - now rewrite Hnone.
  - rewrite Hm. destruct (Z.ltb_spec m 1024) as [Hlt'|Hge]; [reflexivity | lia].
  - destruct (fs e !! p) as [n|]; [|reflexivity].
    destruct (n <? 1024); [reflexivity|].
    f_equal. apply bool_decide_eq_false. tauto.
Qed.

(** C9: [validate_audio_file] returns a boolean on every path and
    raises nothing: it asks whether the path exists first, asks for the
    size only of a path that exists, and answers [False] for a missing
    file. *)
Theorem validate_audio_file_total (e : env float) (p : string) (s : proc float) :
  (exists b, snd (validate_audio_file e p s) = Ok b)
  /\ calls (fst (validate_audio_file e p s)) =
     calls s ++ match fs e !! p with
                | None => [CallExists p]
                | Some _ => [CallExists p; CallGetsize p]
                end
  /\ (forall q, In (CallGetsize q) (calls (fst (validate_audio_file e p s))) ->
      In (CallGetsize q) (calls s) \/ is_Some (fs e !! q))
  /\ (fs e !! p = None -> snd (validate_audio_file e p s) = Ok false).
Proof.
  rewrite validate_audio_file_result, validate_audio_file_state. cbn [calls].
  unfold valid_audio, validation_calls.
  split; [eexists; reflexivity|]. split; [reflexivity|]. split.
  - intros q Hq. apply in_app_or in Hq. destruct Hq as [Hq|Hq]; [now left|right].
    destruct (fs e !! p) as [n|] eqn:Efs; simpl in Hq.
    + destruct Hq as [Hq|[Hq|[]]]; [discriminate|].
      injection Hq as Hq. subst q. rewrite Efs. now exists n.
    + destruct Hq as [Hq|[]]. discriminate.
  - intros ->. reflexivity.
Qed.

(** C10: the constructor stores no language for [None], for the empty
    string and for ["auto"], and stores every other string as it is. *)
Theorem init_normalizes_language
    (e : env float) (size dev : string) (lang : option string) (ct : string) :
  (lang = None \/ lang = Some "" \/ lang = Some "auto" ->
   language (__init__ e size dev lang ct) = None)
  /\ (forall l, lang = Some l -> l <> "" -> l <> "auto" ->
      language (__init__ e size dev lang ct) = Some l).
Proof.
  split.
  - intros [ -> | [ -> | -> ] ]; reflexivity.
  - intros l -> Hne Hna. cbn.
    destruct (String.eqb_spec l ""); [contradiction|].
    destruct (String.eqb_spec l "auto"); [contradiction|].
    reflexivity.
Qed.

(** *** The whole call, and the command line *)

Lemma for_segments_no_exit (segs : list segment) (stop : option fault)
    (acc : string) (n : Z) (c : Z) :
  for_segments segs stop acc n <> Raise (SystemExit c).
Proof.
  destruct stop as [f|].
  - rewrite for_segments_raises. destruct f; discriminate.
  - rewrite for_segments_completes. discriminate.
Qed.

Lemma transcription_no_exit (e : env float) (p : string) (me : transcriber)
    (k : nat) (c : Z) :
  transcription e p me k <> Raise (SystemExit c).
Proof.
  unfold transcription.
  destruct (fs e !! p); [|discriminate].
  destruct (handle_for e me) as [[|? ?]|h]; try discriminate.
  destruct (whisper_transcribe e h p (language me)) as [[|? ?]|r]; try discriminate.
  pose proof (for_segments_no_exit (yielded (fst r)) (stops_with (fst r)) "" 0 c) as Hn.
  destruct (for_segments _ _ _ _); [discriminate|].
  congruence.
Qed.

(** The dictionary a successful call returns. *)
Lemma transcription_ok (e : env float) (p : string) (me : transcriber) (k : nat)
    (n : Z) (h : handle) (segs : list segment) (i : info) :
  fs e !! p = Some n ->
  handle_for e me = inr h ->
  whisper_transcribe e h p (language me) =
    inr ({| yielded := segs; stops_with := None |}, i) ->
  transcription e p me k =
  Ok [("text", JStr (PyStr.strip (join_with_space (map text segs))));
      ("language", result_language i (language me));
      ("duration", JFloat (fsub (now e (S k)) (now e k)));
      ("segments", JInt (Z.of_nat (length segs)));
      ("model_size", JStr (model_size me));
      ("file_size_mb", JFloat (size_mb n))].
Proof.
  intros Hfs Hh Hd. unfold transcription. rewrite Hfs, Hh, Hd.
  cbn [fst snd yielded stops_with].
  rewrite for_segments_completes. cbn [fst snd].
  rewrite append_empty_l, strip_spaced. reflexivity.
Qed.

Lemma transcription_ok_inv (e : env float) (p : string) (me : transcriber) (k : nat)
    (d : list (string * json float)) :
  transcription e p me k = Ok d ->
  exists n h segs i,
    fs e !! p = Some n /\
    handle_for e me = inr h /\
    whisper_transcribe e h p (language me) =
      inr ({| yielded := segs; stops_with := None |}, i) /\
    d = [("text", JStr (PyStr.strip (join_with_space (map text segs))));
         ("language", result_language i (language me));
         ("duration", JFloat (fsub (now e (S k)) (now e k)));
         ("segments", JInt (Z.of_nat (length segs)));
         ("model_size", JStr (model_size me));
         ("file_size_mb", JFloat (size_mb n))].
Proof.
  intros Hd.
  destruct (fs e !! p) as [n|] eqn:Hfs;
    [|unfold transcription in Hd; rewrite Hfs in Hd; discriminate].
  destruct (handle_for e me) as [f|h] eqn:Hh;
    [unfold transcription in Hd; rewrite Hfs, Hh in Hd; discriminate|].
  destruct (whisper_transcribe e h p (language me)) as [f|[[segs [f|]] i]] eqn:Hw.
  - unfold transcription in Hd; rewrite Hfs, Hh, Hw in Hd; discriminate.
  - unfold transcription in Hd; rewrite Hfs, Hh, Hw in Hd.
    cbn [fst snd yielded stops_with] in Hd.
    rewrite for_segments_raises in Hd. discriminate.
  - exists n, h, segs, i. repeat split; try assumption.
    rewrite (transcription_ok e p me k n h segs i Hfs Hh Hw) in Hd.
    now injection Hd as <-.
Qed.

Lemma run_cli_parsed (e : env float) (a : args) :
  made (run_cli e (Parsed a)) =
    validation_calls e (audio_file a)
    ++ (if valid_audio e (audio_file a)
        then new_calls e (audio_file a) (transcriber_of e a) else [])
  /\ (out (run_cli e (Parsed a)), returncode (run_cli e (Parsed a))) =
     if valid_audio e (audio_file a)
     then match transcription e (audio_file a) (transcriber_of e a) 2 with
          | Ok d => ([Json false (JObj d)], 0)
          | Raise KeyboardInterrupt =>
              ([Json true (error_object "Transcription cancelled by user")], 1)
          | Raise (Exception _ msg) =>
              ([Json true (error_object ("Transcription failed: " +:+ msg))], 1)
          | Raise (SystemExit c) => ([], c)
          end
     else ([Json true (error_object
                         ("Invalid or missing audio file: " +:+ audio_file a))], 1).
Proof.
  destruct a as [path m l d v].
  destruct v;
  cbv [run_cli transcriber_of main
       audio_file args_model args_language args_device verbose
       setLevel modify ret bind try_except start with_object fst snd
       stdout stderr root_level calls clock];
  set (me := __init__ e m d _ "int8");
  match goal with |- context [validate_audio_file e path ?s] => set (s0 := s) end;
  pose proof (validate_audio_file_result e path s0) as Hrv;
  pose proof (validate_audio_file_state e path s0) as Hsv;
  destruct (validate_audio_file e path s0) as [s1 rv];
  cbn [fst snd] in Hrv, Hsv; subst rv s1;
  destruct (valid_audio e path);
  try (cbv [negb print_json sys_exit raise modify bind out returncode made exit_status
            stdout stderr root_level calls clock s0];
       cbn [app]; rewrite ?app_nil_r; split; reflexivity).
  all: cbv [negb]; cbv beta iota;
    match goal with
    | |- context [transcribe_file ?e' ?p' (?me', ?s)] =>
        pose proof (transcribe_file_result e' p' me' s) as Hrt;
        pose proof (transcribe_file_stdout e' p' me' s) as Hst;
        pose proof (transcribe_file_calls e' p' me' s) as Hcs;
        destruct (transcribe_file e' p' (me', s)) as [[me2 s2] rt]
    end;
    cbn [fst snd] in Hrt, Hst, Hcs; destruct s2 as [o2 er2 lv2 cs2 ck2];
    cbv [s0 stdout calls] in Hst, Hcs; cbn [app] in Hcs; subst o2 cs2;
    change (decode_clock me _) with 2%nat in Hrt; rewrite <- Hrt;
    destruct rt as [d0|[|c|cls msg]];
    cbv [print_json sys_exit raise modify bind out returncode made exit_status
         stdout stderr root_level calls clock str_exn];
    cbn [app]; split; reflexivity.
Qed.

Lemma validated_result (e : env float) (a : args) :
  snd (validated e a) = Ok (valid_audio e (audio_file a)).
Proof. apply validate_audio_file_result. Qed.

Lemma transcribed_result (e : env float) (a : args) :
  snd (transcribed e a) = transcription e (audio_file a) (transcriber_of e a) 2.
Proof.
  unfold transcribed, validated. rewrite transcribe_file_result.
  rewrite validate_audio_file_state. unfold entered.
  destruct (verbose a); reflexivity.
Qed.

(** C1 (as amended): when the argument parser accepts the command
    line, the program prints exactly one JSON object and ends in one of
    four ways. A path that fails validation gives the error
    [Invalid or missing audio file: <path>] and status 1; an interrupt
    while transcribing gives [Transcription cancelled by user] and
    status 1; any other failure gives [Transcription failed: <message>]
    and status 1; success prints the result dictionary and ends with
    status 0. *)
Theorem main_four_outcomes (e : env float) (a : args) :
  one_json_object (run_cli e (Parsed a))
  /\ match snd (validated e a) with
     | Ok false =>
         out (run_cli e (Parsed a)) =
           [Json true (error_object
                         ("Invalid or missing audio file: " +:+ audio_file a))]
         /\ returncode (run_cli e (Parsed a)) = 1
     | Ok true =>
         match snd (transcribed e a) with
         | Ok d =>
             out (run_cli e (Parsed a)) = [Json false (JObj d)]
             /\ returncode (run_cli e (Parsed a)) = 0
         | Raise KeyboardInterrupt =>
             out (run_cli e (Parsed a)) =
               [Json true (error_object "Transcription cancelled by user")]
             /\ returncode (run_cli e (Parsed a)) = 1
         | Raise (Exception _ msg) =>
             out (run_cli e (Parsed a)) =
               [Json true (error_object ("Transcription failed: " +:+ msg))]
             /\ returncode (run_cli e (Parsed a)) = 1
         | Raise (SystemExit _) => False
         end
     | Raise _ => False
     end.
Proof.
  rewrite validated_result, transcribed_result.
  destruct (run_cli_parsed e a) as [_ Hout].
  pose proof (transcription_no_exit e (audio_file a) (transcriber_of e a) 2) as Hne.
  unfold one_json_object, error_object in *.
  destruct (valid_audio e (audio_file a)).
  - destruct (transcription e (audio_file a) (transcriber_of e a) 2)
      as [d|[|c|cls msg]]; apply pair_equal_spec in Hout as [Ho Hr];
      try (rewrite Ho, Hr; split; [do 2 eexists; reflexivity | split; reflexivity]).
    exfalso. eapply Hne. reflexivity.
  - apply pair_equal_spec in Hout as [Ho Hr]. rewrite Ho, Hr.
    split; [do 2 eexists; reflexivity | split; reflexivity].
Qed.

(** The result under another clock. *)
Lemma transcription_with_clock (e : env float) (now' : nat -> float)
    (p : string) (me : transcriber) (k : nat) :
  match transcription (with_clock e now') p me k, transcription e p me k with
  | Ok d', Ok d =>
      keys d' = keys d
      /\ forall key, key <> "duration" -> dict_get key d' = dict_get key d
  | Raise ex', Raise ex => ex' = ex
  | _, _ => False
  end.
Proof.
  unfold transcription, handle_for, load_args_of.
  cbn [with_clock fs cpu_count expanduser now whisper_model whisper_transcribe].
  destruct (fs e !! p); [|reflexivity].
  destruct (match model me with Some h => inr h | None => _ end) as [f|h]; [reflexivity|].
  destruct (whisper_transcribe e h p (language me)) as [f|r]; [reflexivity|].
  destruct (for_segments _ _ _ _); [|reflexivity].
  split; [reflexivity|]. intros key Hkey. cbn [dict_get].
  destruct (String.eqb_spec key "duration") as [->|_]; [contradiction | reflexivity].
Qed.

(** C8 (as amended): two runs that differ only in [--verbose], with the
    same files, the same library and the same clock, print the same
    lines on standard output and end with the same status. With
    another clock the status is still the same, and the two outputs
    differ at most in the value of [duration]. *)
Theorem verbose_keeps_json (e : env float) (a : args) :
  (out (run_cli e (Parsed (with_verbose a true))) =
   out (run_cli e (Parsed (with_verbose a false)))
   /\ returncode (run_cli e (Parsed (with_verbose a true))) =
      returncode (run_cli e (Parsed (with_verbose a false))))
  /\ forall now' : nat -> float,
       returncode (run_cli (with_clock e now') (Parsed (with_verbose a true))) =
       returncode (run_cli e (Parsed (with_verbose a false)))
       /\ same_but_duration
            (out (run_cli (with_clock e now') (Parsed (with_verbose a true))))
            (out (run_cli e (Parsed (with_verbose a false)))).
Proof.
  destruct (run_cli_parsed e (with_verbose a false)) as [_ Hoff].
  split.
  - destruct (run_cli_parsed e (with_verbose a true)) as [_ Hon].
    change (audio_file (with_verbose a true)) with (audio_file (with_verbose a false)) in Hon.
    change (transcriber_of e (with_verbose a true))
      with (transcriber_of e (with_verbose a false)) in Hon.
    rewrite <- Hoff in Hon. now injection Hon.
  - intros now'.
    destruct (run_cli_parsed (with_clock e now') (with_verbose a true)) as [_ Hon].
    change (audio_file (with_verbose a true)) with (audio_file (with_verbose a false)) in Hon.
    change (transcriber_of (with_clock e now') (with_verbose a true))
      with (transcriber_of e (with_verbose a false)) in Hon.
    change (valid_audio (with_clock e now') (audio_file (with_verbose a false)))
      with (valid_audio e (audio_file (with_verbose a false))) in Hon.
    pose proof (transcription_with_clock e now' (audio_file (with_verbose a false))
                  (transcriber_of e (with_verbose a false)) 2) as Hclock.
    unfold same_but_duration.
    destruct (valid_audio e (audio_file (with_verbose a false))).
    2:{ apply pair_equal_spec in Hon as [Hon Hrn].
        apply pair_equal_spec in Hoff as [Hoff Hrf].
        rewrite Hon, Hrn, Hoff, Hrf. split; [reflexivity | left; reflexivity]. }
    destruct (transcription (with_clock e now') _ _ 2) as [d'|ex'];
      destruct (transcription e _ _ 2) as [d|ex]; try contradiction.
    + destruct Hclock as [Hkeys Hvals].
      apply pair_equal_spec in Hon as [Hon Hrn].
      apply pair_equal_spec in Hoff as [Hoff Hrf].
      rewrite Hon, Hrn, Hoff, Hrf.
      split; [reflexivity|]. right. exists d', d. auto.
    + subst ex'. rewrite <- Hoff in Hon.
      apply pair_equal_spec in Hon as [Hon Hrn].
      rewrite Hon, Hrn. split; [reflexivity | left; reflexivity].
Qed.

(** C3 (as amended): a successful [transcribe_file] returns a
    dictionary with exactly the keys [text], [language], [duration],
    [segments], [model_size] and [file_size_mb], in this order, holding
    a string, the language, a float, an integer, the model size as a
    string, and a float. The language is a string whenever one is
    configured, as with the default [en], or the library's info carries
    the language it detected, as that of faster-whisper does. A run of
    the program that ends with status 0 prints that dictionary, and
    nothing else, as its JSON object. *)
Theorem result_fields :
  (forall (e : env float) (p : string) (me : transcriber) (s : proc float)
          (d : list (string * json float)),
      snd (transcribe_file e p (me, s)) = Ok d ->
      keys d = ["text"; "language"; "duration"; "segments"; "model_size"; "file_size_mb"]
      /\ exists t l x n y,
           d = [("text", JStr t); ("language", l); ("duration", JFloat x);
                ("segments", JInt n); ("model_size", JStr (model_size me));
                ("file_size_mb", JFloat y)]
           /\ ((language me <> None
                \/ forall h g i,
                     whisper_transcribe e h p (language me) = inr (g, i) ->
                     info_language i <> None) ->
               exists c, l = JStr c))
  /\ (forall (e : env float) (a : args),
        returncode (run_cli e (Parsed a)) = 0 ->
        exists d, snd (transcribed e a) = Ok d
                  /\ out (run_cli e (Parsed a)) = [Json false (JObj d)]).
Proof.
  split.
  - intros e p me s d Hd. rewrite transcribe_file_result in Hd.
    apply transcription_ok_inv in Hd.
    destruct Hd as (n & h & segs & i & _ & _ & Hw & ->).
    split; [reflexivity|].
    do 5 eexists. split; [reflexivity|].
    unfold result_language. intros Hlang.
    destruct (info_language i) as [detected|] eqn:Hi; [eauto|].
    destruct (language me) as [configured|] eqn:Hl; [eauto|].
    exfalso. destruct Hlang as [Hc|Hlib]; [now apply Hc|].
    apply (Hlib h _ i Hw). exact Hi.
  - intros e a Hrc. rewrite transcribed_result.
    destruct (run_cli_parsed e a) as [_ Hout].
    pose proof (transcription_no_exit e (audio_file a) (transcriber_of e a) 2) as Hne.
    destruct (valid_audio e (audio_file a)).
    + destruct (transcription e (audio_file a) (transcriber_of e a) 2)
        as [d|[|c|cls msg]]; apply pair_equal_spec in Hout as [Ho Hr];
        try (rewrite Hr in Hrc; discriminate).
      * exists d. split; [reflexivity | assumption].
      * exfalso. eapply Hne. reflexivity.
    + apply pair_equal_spec in Hout as [Ho Hr]. rewrite Hr in Hrc. discriminate.
Qed.

(** C4: when the decode call yields the segments [segs] and the
    iteration ends normally, [transcribe_file] returns a dictionary
    whose [text] is the texts of [segs] joined by a single space and
    then stripped, and whose [segments] is their number; without
    segments the text is empty and the count is 0. *)
Theorem transcribe_file_joins_segments
    (e : env float) (p : string) (me : transcriber) (s : proc float)
    (n : Z) (h : handle) (segs : list segment) (i : info) :
  fs e !! p = Some n ->
  handle_for e me = inr h ->
  whisper_transcribe e h p (language me) =
    inr ({| yielded := segs; stops_with := None |}, i) ->
  exists d,
    snd (transcribe_file e p (me, s)) = Ok d
    /\ dict_get "text" d =
       Some (JStr (PyStr.strip (join_with_space (map text segs))))
    /\ dict_get "segments" d = Some (JInt (Z.of_nat (length segs)))
    /\ (segs = [] ->
        dict_get "text" d = Some (JStr "") /\ dict_get "segments" d = Some (JInt 0)).
Proof.
  intros Hfs Hh Hw. rewrite transcribe_file_result.
  rewrite (transcription_ok e p me _ n h segs i Hfs Hh Hw).
  eexists. split; [reflexivity|].
  split; [reflexivity|]. split; [reflexivity|].
  intros ->. split; reflexivity.
Qed.

(** The decode calls among the calls of one [transcribe_file]. *)
Lemma new_calls_decode (e : env float) (p : string) (me : transcriber)
    (h : handle) (q : string) (l : option string) :
  In (CallDecode h q l) (new_calls e p me) ->
  handle_for e me = inr h /\ q = p /\ l = language me.
Proof.
  unfold new_calls, handle_for.
  destruct (fs e !! p); [|simpl; intros [Hc|[]]; discriminate].
  destruct (model me) as [h0|].
  - cbn [app]. intros [Hc|[Hc|[Hc|Hc]]]; try discriminate.
    + injection Hc as -> -> ->. auto.
    + destruct (whisper_transcribe e h0 p (language me)) as [f|r]; [destruct Hc|].
      destruct (for_segments _ _ _ _); [|destruct Hc].
      destruct Hc as [Hc|[Hc|[]]]; discriminate.
  - destruct (whisper_model e (load_args_of e me)) as [f|h0].
    + cbn [app]. intros [Hc|[Hc|[Hc|[]]]]; discriminate.
    + cbn [app]. intros [Hc|[Hc|[Hc|[Hc|[Hc|[Hc|Hc]]]]]]; try discriminate.
      * injection Hc as -> -> ->. auto.
      * destruct (whisper_transcribe e h0 p (language me)) as [f|r]; [destruct Hc|].
        destruct (for_segments _ _ _ _); [|destruct Hc].
        destruct Hc as [Hc|[Hc|[]]]; discriminate.
Qed.

Lemma validation_calls_decode (e : env float) (p : string)
    (h : handle) (q : string) (l : option string) :
  ~ In (CallDecode h q l) (validation_calls e p).
Proof.
  unfold validation_calls.
  destruct (fs e !! p); simpl; intuition discriminate.
Qed.

(** A call that finds the file and gets a handle does make the decode
    call. *)
Lemma new_calls_has_decode (e : env float) (p : string) (me : transcriber)
    (n : Z) (h : handle) :
  fs e !! p = Some n ->
  handle_for e me = inr h ->
  In (CallDecode h p (language me)) (new_calls e p me).
Proof.
  unfold new_calls. intros -> ->. right.
  apply in_or_app. right. right. left. reflexivity.
Qed.

Lemma auto_language (e : env float) (a : args) :
  args_language a = "auto" -> language (transcriber_of e a) = None.
Proof. intros Hauto. unfold transcriber_of. now rewrite Hauto. Qed.

(** C6: a run on a valid file whose model loads does make the decode
    call, with the configured language of the transcriber, which is
    [None] when the command line says [--language auto]; no decode call
    of a run is given anything else. A transcription that finds its
    file, gets a handle and decodes to the end returns a result whose
    [language] entry is the language of the library's info when it has
    one, else the configured language; every result is of that form;
    and a run with [--language auto] prints the detected language. *)
Theorem language_passed_and_reported :
  (forall (e : env float) (a : args) (h : handle),
      snd (validated e a) = Ok true ->
      whisper_model e (load_args_of e (transcriber_of e a)) = inr h ->
      In (CallDecode h (audio_file a) (language (transcriber_of e a)))
         (made (run_cli e (Parsed a)))
      /\ (args_language a = "auto" ->
          In (CallDecode h (audio_file a) None) (made (run_cli e (Parsed a)))))
  /\ (forall (e : env float) (a : args) (h : handle) (q : string) (l : option string),
        In (CallDecode h q l) (made (run_cli e (Parsed a))) ->
        l = language (transcriber_of e a)
        /\ (args_language a = "auto" -> l = None))
  /\ (forall (e : env float) (p : string) (me : transcriber) (s : proc float)
             (n : Z) (h : handle) (segs : list segment) (i : info),
        fs e !! p = Some n ->
        handle_for e me = inr h ->
        whisper_transcribe e h p (language me) =
          inr ({| yielded := segs; stops_with := None |}, i) ->
        exists d,
          snd (transcribe_file e p (me, s)) = Ok d
          /\ dict_get "language" d =
             Some (match info_language i with
                   | Some detected => JStr detected
                   | None =>
                       match language me with
                       | Some configured => JStr configured
                       | None => JNull
                       end
                   end))
  /\ (forall (e : env float) (p : string) (me : transcriber) (s : proc float)
             (d : list (string * json float)),
        snd (transcribe_file e p (me, s)) = Ok d ->
        exists h g i,
          handle_for e me = inr h
          /\ whisper_transcribe e h p (language me) = inr (g, i)
          /\ dict_get "language" d =
             Some (match info_language i with
                   | Some detected => JStr detected
                   | None =>
                       match language me with
                       | Some configured => JStr configured
                       | None => JNull
                       end
                   end))
  /\ (forall (e : env float) (a : args) (h : handle) (segs : list segment)
             (detected : string),
        args_language a = "auto" ->
        snd (validated e a) = Ok true ->
        whisper_model e (load_args_of e (transcriber_of e a)) = inr h ->
        whisper_transcribe e h (audio_file a) None =
          inr ({| yielded := segs; stops_with := None |},
               {| info_language := Some detected |}) ->
        exists d,
          out (run_cli e (Parsed a)) = [Json false (JObj d)]
          /\ returncode (run_cli e (Parsed a)) = 0
          /\ dict_get "language" d = Some (JStr detected)).
Proof.
  assert (Hvalid : forall (e : env float) (a : args),
            snd (validated e a) = Ok true ->
            valid_audio e (audio_file a) = true
            /\ exists n, fs e !! audio_file a = Some n).
  { intros e a Hv. rewrite validated_result in Hv. injection Hv as Hv.
    split; [exact Hv|]. unfold valid_audio in Hv.
    destruct (fs e !! audio_file a) as [n|]; [eauto | discriminate]. }
  split; [|split; [|split; [|split]]].
  - intros e a h Hv Hload.
    destruct (Hvalid e a Hv) as (Hva & n & Hfs).
    destruct (run_cli_parsed e a) as [Hmade _]. rewrite Hmade, Hva.
    assert (Hin : In (CallDecode h (audio_file a) (language (transcriber_of e a)))
                     (validation_calls e (audio_file a)
                      ++ new_calls e (audio_file a) (transcriber_of e a))).
    { apply in_or_app. right.
      apply (new_calls_has_decode e (audio_file a) (transcriber_of e a) n h Hfs).
      exact Hload. }
    split; [exact Hin|].
    intros Hauto. rewrite <- (auto_language e a Hauto). exact Hin.
  - intros e a h q l Hin.
    destruct (run_cli_parsed e a) as [Hmade _]. rewrite Hmade in Hin.
    apply in_app_or in Hin. destruct Hin as [Hin|Hin].
    + now apply validation_calls_decode in Hin.
    + destruct (valid_audio e (audio_file a)); [|destruct Hin].
      apply new_calls_decode in Hin. destruct Hin as (_ & _ & ->).
      split; [reflexivity|]. apply auto_language.
  - intros e p me s n h segs i Hfs Hh Hw. rewrite transcribe_file_result.
    rewrite (transcription_ok e p me _ n h segs i Hfs Hh Hw).
    eexists. split; reflexivity.
  - intros e p me s d Hd. rewrite transcribe_file_result in Hd.
    apply transcription_ok_inv in Hd.
    destruct Hd as (n & h & segs & i & _ & Hh & Hw & ->).
    exists h, {| yielded := segs; stops_with := None |}, i.
    repeat split; assumption || reflexivity.
  - intros e a h segs detected Hauto Hv Hload Hw.
    destruct (Hvalid e a Hv) as (Hva & n & Hfs).
    destruct (run_cli_parsed e a) as [_ Hout]. rewrite Hva in Hout.
    rewrite <- (auto_language e a Hauto) in Hw.
    rewrite (transcription_ok e (audio_file a) (transcriber_of e a) 2 n h segs _
               Hfs Hload Hw) in Hout.
    apply pair_equal_spec in Hout as [Ho Hr].
    eexists. split; [exact Ho|]. split; [exact Hr | reflexivity].
Qed.

(** *** The life of the handle *)

Lemma track_app (held : option handle) (tr1 tr2 : list call) :
  track held (tr1 ++ tr2) =
  match track held tr1 with
  | Some held' => track held' tr2
  | None => None
  end.
Proof.
  revert held. induction tr1 as [|c tr1 IH]; intros held; [reflexivity|].
  destruct c as [q|q| |a [f|h]|h q l]; cbn [app track]; try apply IH.
  - destruct held; [reflexivity | apply IH].
  - destruct held; [reflexivity | apply IH].
  - destruct held as [h'|]; [|reflexivity].
    destruct (Nat.eqb h h'); [apply IH | reflexivity].
Qed.

Lemma track_held (h : handle) (tr : list call) (held' : option handle) :
  track (Some h) tr = Some held' ->
  held' = Some h
  /\ List.filter created_handle tr = []
  /\ (forall a r, ~ In (CallLoad a r) tr)
  /\ (forall h' q l, In (CallDecode h' q l) tr -> h' = h).
Proof.
  induction tr as [|c tr IH]; cbn [track].
  - intros Hh. injection Hh as <-. split; [reflexivity|]. split; [reflexivity|].
    split; [intros a r [] | intros h' q l []].
  - destruct c as [q|q| |a r|h0 q l]; try discriminate.
    + intros Ht. destruct (IH Ht) as (-> & Hf & Hl & Hd).
      repeat split; [exact Hf| |].
      * intros a r [Hc|Hin]; [discriminate | exact (Hl a r Hin)].
      * intros h' q' l [Hc|Hin]; [discriminate | exact (Hd h' q' l Hin)].
    + intros Ht. destruct (IH Ht) as (-> & Hf & Hl & Hd).
      repeat split; [exact Hf| |].
      * intros a r [Hc|Hin]; [discriminate | exact (Hl a r Hin)].
      * intros h' q' l [Hc|Hin]; [discriminate | exact (Hd h' q' l Hin)].
    + intros Ht. destruct (IH Ht) as (-> & Hf & Hl & Hd).
      repeat split; [exact Hf| |].
      * intros a r [Hc|Hin]; [discriminate | exact (Hl a r Hin)].
      * intros h' q' l [Hc|Hin]; [discriminate | exact (Hd h' q' l Hin)].
    + destruct (Nat.eqb_spec h0 h) as [->|Hne]; [|discriminate].
      intros Ht. destruct (IH Ht) as (-> & Hf & Hl & Hd).
      repeat split; [exact Hf| |].
      * intros a r [Hc|Hin]; [discriminate | exact (Hl a r Hin)].
      * intros h' q' l' [Hc|Hin]; [now injection Hc as <- | exact (Hd h' q' l' Hin)].
Qed.

Lemma track_free (tr : list call) (held' : option handle) :
  track None tr = Some held' ->
  (length (List.filter created_handle tr) <= 1)%nat
  /\ (forall h q l, In (CallDecode h q l) tr -> held' = Some h).
Proof.
  induction tr as [|c tr IH]; cbn [track].
  - intros _. split; [simpl; lia | intros h q l []].
  - destruct c as [q|q| |a [f|h0]|h0 q l]; try discriminate.
    + intros Ht. destruct (IH Ht) as [Hf Hd]. split; [exact Hf|].
      intros h q' l [Hc|Hin]; [discriminate | exact (Hd h q' l Hin)].
    + intros Ht. destruct (IH Ht) as [Hf Hd]. split; [exact Hf|].
      intros h q' l [Hc|Hin]; [discriminate | exact (Hd h q' l Hin)].
    + intros Ht. destruct (IH Ht) as [Hf Hd]. split; [exact Hf|].
      intros h q' l [Hc|Hin]; [discriminate | exact (Hd h q' l Hin)].
    + intros Ht. destruct (IH Ht) as [Hf Hd]. split; [exact Hf|].
      intros h q' l [Hc|Hin]; [discriminate | exact (Hd h q' l Hin)].
    + intros Ht. destruct (track_held h0 tr held' Ht) as (-> & Hf & _ & Hd).
      split; [cbn; rewrite Hf; simpl; lia|].
      intros h q l [Hc|Hin]; [discriminate|].
      now rewrite (Hd h q l Hin).
Qed.

(** One call keeps to the discipline, from the handle it finds. *)
Lemma track_new_calls (e : env float) (p : string) (me : transcriber) :
  track (model me) (new_calls e p me) = Some (model (after_call e p me)).
Proof.
  unfold new_calls, after_call, handle_for.
  destruct (model me) as [h|] eqn:Hm; (destruct (fs e !! p); [|now rewrite ?Hm]).
  - cbn [app track]. rewrite Nat.eqb_refl.
    destruct (whisper_transcribe e h p (language me)) as [f|r]; [now rewrite Hm|].
    destruct (for_segments _ _ _ _); now rewrite Hm.
  - destruct (whisper_model e (load_args_of e me)) as [f|h]; [now rewrite Hm|].
    cbn [app track]. rewrite Nat.eqb_refl.
    destruct (whisper_transcribe e h p (language me)) as [f|r]; [reflexivity|].
    destruct (for_segments _ _ _ _); reflexivity.
Qed.

Lemma track_transcribe_each (requests : list (env float * string))
    (st : transcriber * proc float) :
  track None (calls (snd st)) = Some (model (fst st)) ->
  track None (calls (snd (transcribe_each requests st))) =
  Some (model (fst (transcribe_each requests st))).
Proof.
  revert st. induction requests as [|[e p] rest IH]; intros [me s] Hst; [exact Hst|].
  cbn [transcribe_each]. apply IH.
  destruct (transcribe_file e p (me, s)) as [[me' s'] r] eqn:Hrun.
  pose proof (transcribe_file_calls e p me s) as Hc.
  pose proof (transcribe_file_object e p me s) as Ho.
  rewrite Hrun in Hc, Ho. cbn [fst snd] in *.
  rewrite Hc, Ho, track_app, Hst. apply track_new_calls.
Qed.

(** C5: over any sequence of [transcribe_file] calls on one freshly
    built transcriber, [WhisperModel] is called only while the [model]
    field is unset, it returns a handle at most once, and every decode
    call is made with the handle the field holds at the end. A call that
    finds a handle keeps it and loads nothing; a successful call that
    finds none loads one. *)
Theorem model_loaded_lazily :
  (forall (e0 : env float) (size dev : string) (lang : option string) (ct : string)
          (requests : list (env float * string)) (s0 : proc float),
      calls s0 = [] ->
      track None
        (calls (snd (transcribe_each requests (__init__ e0 size dev lang ct, s0)))) =
      Some (model (fst (transcribe_each requests (__init__ e0 size dev lang ct, s0))))
      /\ (length (List.filter created_handle
            (calls (snd (transcribe_each requests (__init__ e0 size dev lang ct, s0)))))
          <= 1)%nat
      /\ (forall h q l,
            In (CallDecode h q l)
              (calls (snd (transcribe_each requests (__init__ e0 size dev lang ct, s0)))) ->
            model (fst (transcribe_each requests (__init__ e0 size dev lang ct, s0))) =
            Some h))
  /\ (forall (e : env float) (p : string) (me : transcriber) (s : proc float),
        calls (snd (fst (transcribe_file e p (me, s)))) = calls s ++ new_calls e p me
        /\ (forall h, model me = Some h ->
              model (fst (fst (transcribe_file e p (me, s)))) = Some h
              /\ forall a r, ~ In (CallLoad a r) (new_calls e p me))
        /\ (forall d, model me = None ->
              snd (transcribe_file e p (me, s)) = Ok d ->
              exists h,
                In (CallLoad (load_args_of e me) (inr h)) (new_calls e p me)
                /\ model (fst (fst (transcribe_file e p (me, s)))) = Some h)).
Proof.
  split.
  - intros e0 size dev lang ct requests s0 Hs0.
    pose proof (track_transcribe_each requests (__init__ e0 size dev lang ct, s0)) as Ht.
    cbn [fst snd] in Ht. rewrite Hs0 in Ht. specialize (Ht eq_refl).
    split; [exact Ht|]. exact (track_free _ _ Ht).
  - intros e p me s. split; [apply transcribe_file_calls|].
    rewrite transcribe_file_object. split.
    + intros h Hm. pose proof (track_new_calls e p me) as Ht. rewrite Hm in Ht.
      destruct (track_held _ _ _ Ht) as (Ha & _ & Hl & _).
      split; [exact Ha | exact Hl].
    + intros d Hm Hd. rewrite transcribe_file_result in Hd.
      apply transcription_ok_inv in Hd.
      destruct Hd as (n & h & segs & i & Hfs & Hh & _ & _).
      unfold handle_for in Hh. rewrite Hm in Hh.
      exists h. unfold new_calls, after_call. rewrite Hfs, Hm, Hh.
      split; [right; right; left; reflexivity | reflexivity].
Qed.
(** *** More on the wrapper *)

(** X1: [load_model] reads the clock, calls [WhisperModel] once, and
    reads the clock a second time only when a handle comes back; it
    prints nothing. When a handle comes back it is stored in the
    [model] field. When the library fails, the same exception goes on
    to the caller, the object is as it was, and the error is the last
    record logged; an interrupt goes on without an error record. *)
Theorem load_model_endings (e : env float) (me : transcriber) (s : proc float) :
  calls (snd (fst (load_model e (me, s)))) =
    calls s ++ [CallTime; CallLoad (load_args_of e me) (whisper_model e (load_args_of e me))]
            ++ match whisper_model e (load_args_of e me) with
               | inr _ => [CallTime]
               | inl _ => []
               end
  /\ stdout (snd (fst (load_model e (me, s)))) = stdout s
  /\ match whisper_model e (load_args_of e me) with
     | inr h =>
         snd (load_model e (me, s)) = Ok tt
         /\ fst (fst (load_model e (me, s))) = with_model me h
     | inl Interrupted =>
         snd (load_model e (me, s)) = Raise KeyboardInterrupt
         /\ fst (fst (load_model e (me, s))) = me
         /\ Forall (fun r => levelno r <> ERROR)
              (drop (length (stderr s)) (stderr (snd (fst (load_model e (me, s))))))
     | inl (Failed cls msg) =>
         snd (load_model e (me, s)) = Raise (Exception cls msg)
         /\ fst (fst (load_model e (me, s))) = me
         /\ (root_level s <= ERROR ->
             last (stderr (snd (fst (load_model e (me, s))))) =
             Some {| levelno := ERROR; levelname := "ERROR";
                     message := "Failed to load model: " +:+ msg |})
     end.
Proof.
  destruct s as [o er lv cs ck], me as [ms dv lg ct mo th].
  py_unfold.
  destruct (whisper_model e _) as [[|cls msg]|h]; cbn [app].
  - split; [now rewrite <- !app_assoc|]. split; [reflexivity|].
    split; [reflexivity|]. split; [reflexivity|].
    rewrite drop_app_length.
    destruct (lv <=? INFO); repeat constructor; discriminate.
  - split; [now rewrite <- !app_assoc|]. split; [reflexivity|].
    split; [reflexivity|]. split; [reflexivity|].
    intros Hlv. apply Z.leb_le in Hlv. rewrite Hlv. apply last_snoc.
  - split; [now rewrite <- !app_assoc|]. split; [reflexivity|].
    split; reflexivity.
Qed.

(** X2: A path that does not exist stops [transcribe_file] at once: it
    raises [FileNotFoundError] with the path in its message after the
    one call that asks whether the path exists, without loading the
    model, reading the clock or logging, and leaves the object alone. *)
Theorem transcribe_file_missing (e : env float) (p : string)
    (me : transcriber) (s : proc float) :
  fs e !! p = None ->
  transcribe_file e p (me, s) =
  ((me, record_call (CallExists p) s),
   Raise (Exception "FileNotFoundError" ("Audio file not found: " +:+ p))).
Proof.
  intros Hfs. destruct s as [o er lv cs ck]. py_unfold. now rewrite Hfs.
Qed.

(** The object keeps every configured field through a call. *)
Lemma after_call_fields (e : env float) (p : string) (me : transcriber) :
  model_size (after_call e p me) = model_size me
  /\ device (after_call e p me) = device me
  /\ language (after_call e p me) = language me
  /\ compute_type (after_call e p me) = compute_type me
  /\ cpu_threads (after_call e p me) = cpu_threads me.
Proof.
  unfold after_call.
  destruct (model me); [repeat split|].
  destruct (fs e !! p); [|repeat split].
  destruct (whisper_model e (load_args_of e me)); repeat split.
Qed.

Lemma after_call_model (e : env float) (p : string) (me : transcriber)
    (n : Z) (h : handle) :
  fs e !! p = Some n ->
  handle_for e me = inr h ->
  model (after_call e p me) = Some h.
Proof.
  unfold after_call, handle_for. intros -> Hh.
  destruct (model me) as [h'|] eqn:Hm; [congruence|].
  now rewrite Hh.
Qed.

(** X3: When the decode call fails, or the iteration over the segments
    fails after any number of them, [transcribe_file] raises that same
    exception and returns no partial text; the handle it worked with
    stays in the [model] field, nothing is printed, and the error is the
    last record logged. *)
Theorem transcribe_file_decode_failure (e : env float) (p : string)
    (me : transcriber) (s : proc float) (n : Z) (h : handle) (cls msg : string) :
  fs e !! p = Some n ->
  handle_for e me = inr h ->
  (whisper_transcribe e h p (language me) = inl (Failed cls msg)
   \/ exists segs i,
        whisper_transcribe e h p (language me) =
        inr ({| yielded := segs; stops_with := Some (Failed cls msg) |}, i)) ->
  snd (transcribe_file e p (me, s)) = Raise (Exception cls msg)
  /\ model (fst (fst (transcribe_file e p (me, s)))) = Some h
  /\ stdout (snd (fst (transcribe_file e p (me, s)))) = stdout s
  /\ (root_level s <= ERROR ->
      last (stderr (snd (fst (transcribe_file e p (me, s))))) =
      Some {| levelno := ERROR; levelname := "ERROR";
              message := "Transcription failed: " +:+ msg |}).
Proof.
  intros Hfs Hh Hfail.
  split.
  { rewrite transcribe_file_result. unfold transcription. rewrite Hfs, Hh.
    destruct Hfail as [->|(segs & i & ->)]; [reflexivity|].
    cbn [fst snd yielded stops_with]. now rewrite for_segments_raises. }
  split.
  { rewrite transcribe_file_object. now apply (after_call_model e p me n h). }
  split; [apply transcribe_file_stdout|].
  intros Hlv. apply Z.leb_le in Hlv.
  assert (Hseg : forall segs, for_segments segs (Some (Failed cls msg)) "" 0 =
                              Raise (Exception cls msg))
    by (intros segs; apply for_segments_raises).
  unfold handle_for in Hh.
  destruct s as [o er lv cs ck], me as [ms dv lg ct mo th].
  cbn [model language root_level] in *.
  py_unfold. rewrite Hfs.
  destruct mo as [h0|].
  - injection Hh as ->.
    destruct Hfail as [->|(segs & i & ->)]; cbv beta iota; rewrite ?Hseg;
      cbv beta iota; rewrite Hlv; apply last_snoc.
  - cbv [load_args_of model_size device compute_type cpu_threads] in Hh.
    rewrite Hh.
    destruct Hfail as [->|(segs & i & ->)]; cbv beta iota; rewrite ?Hseg;
      cbv beta iota; first [rewrite Hlv | idtac]; apply last_snoc.
Qed.

(** X4: The reported duration is the difference of the two clock readings
    around the decode call and the loop over the segments: when the
    model has to be loaded first, the two readings [load_model] takes
    come before and are not part of it. *)
Theorem duration_excludes_loading (e : env float) (p : string)
    (me : transcriber) (s : proc float) (d : list (string * json float)) :
  snd (transcribe_file e p (me, s)) = Ok d ->
  dict_get "duration" d =
  Some (JFloat (match model me with
                | Some _ => fsub (now e (S (clock s))) (now e (clock s))
                | None => fsub (now e (S (S (S (clock s))))) (now e (S (S (clock s))))
                end))
  /\ clock (snd (fst (transcribe_file e p (me, s)))) =
     match model me with
     | Some _ => S (S (clock s))
     | None => S (S (S (S (clock s))))
     end.
Proof.
  intros Hd. split.
  - rewrite transcribe_file_result in Hd. apply transcription_ok_inv in Hd.
    destruct Hd as (n & h & segs & i & _ & _ & _ & ->).
    unfold decode_clock. destruct (model me); reflexivity.
  - revert Hd. destruct s as [o er lv cs ck], me as [ms dv lg ct mo th].
    py_unfold.
    destruct mo; repeat (py_case; try discriminate; try reflexivity).
Qed.

(** X5: A second call on the same file, with the library answering as
    before, loads nothing and returns the same dictionary except for
    the duration. *)
Theorem repeated_call_agrees (e : env float) (p : string)
    (me : transcriber) (s : proc float) (d : list (string * json float)) :
  snd (transcribe_file e p (me, s)) = Ok d ->
  exists d',
    snd (transcribe_file e p (fst (transcribe_file e p (me, s)))) = Ok d'
    /\ (forall k, k <> "duration" -> dict_get k d' = dict_get k d)
    /\ keys d' = keys d
    /\ forall a r,
         ~ In (CallLoad a r)
             (new_calls e p (fst (fst (transcribe_file e p (me, s))))).
Proof.
  intros Hd. rewrite transcribe_file_result in Hd.
  apply transcription_ok_inv in Hd.
  destruct Hd as (n & h & segs & i & Hfs & Hh & Hw & ->).
  destruct (transcribe_file e p (me, s)) as [[me' s'] r] eqn:Hrun.
  pose proof (transcribe_file_object e p me s) as Ho. rewrite Hrun in Ho.
  cbn [fst snd] in Ho |- *. subst me'.
  destruct (after_call_fields e p me) as (Hms & _ & Hlg & _ & _).
  pose proof (after_call_model e p me n h Hfs Hh) as Hm.
  assert (Hh' : handle_for e (after_call e p me) = inr h)
    by (unfold handle_for; now rewrite Hm).
  rewrite <- Hlg in Hw.
  rewrite transcribe_file_result.
  rewrite (transcription_ok e p _ _ n h segs i Hfs Hh' Hw).
  eexists. split; [reflexivity|]. split; [|split; [reflexivity|]].
  - intros k Hk. rewrite Hms, Hlg. cbn [dict_get].
    destruct (String.eqb_spec k "duration") as [->|_]; [contradiction | reflexivity].
  - pose proof (track_new_calls e p (after_call e p me)) as Ht. rewrite Hm in Ht.
    destruct (track_held _ _ _ Ht) as (_ & _ & Hl & _). exact Hl.
Qed.

(** The model loads among the calls of one [transcribe_file]. *)
Lemma new_calls_load (e : env float) (p : string) (me : transcriber)
    (a : load_args) (r : fault + handle) :
  In (CallLoad a r) (new_calls e p me) ->
  model me = None /\ a = load_args_of e me /\ r = whisper_model e a.
Proof.
  unfold new_calls, handle_for.
  destruct (fs e !! p); [|simpl; intros [Hc|[]]; discriminate].
  destruct (model me) as [h0|].
  - cbn [app]. intros [Hc|[Hc|[Hc|Hc]]]; try discriminate.
    destruct (whisper_transcribe e h0 p (language me)) as [f|g]; [destruct Hc|].
    destruct (for_segments _ _ _ _); [|destruct Hc].
    destruct Hc as [Hc|[Hc|[]]]; discriminate.
  - destruct (whisper_model e (load_args_of e me)) as [f|h0] eqn:Hwm.
    + cbn [app]. intros [Hc|[Hc|[Hc|[]]]]; try discriminate.
      injection Hc as <- <-. now rewrite Hwm.
    + cbn [app]. intros [Hc|[Hc|[Hc|[Hc|[Hc|[Hc|Hc]]]]]]; try discriminate.
      * injection Hc as <- <-. now rewrite Hwm.
      * destruct (whisper_transcribe e h0 p (language me)) as [f|g]; [destruct Hc|].
        destruct (for_segments _ _ _ _); [|destruct Hc].
        destruct Hc as [Hc|[Hc|[]]]; discriminate.
Qed.

Lemma validation_calls_load (e : env float) (p : string)
    (a : load_args) (r : fault + handle) :
  ~ In (CallLoad a r) (validation_calls e p).
Proof.
  unfold validation_calls.
  destruct (fs e !! p); simpl; intuition discriminate.
Qed.

(** X6: A run whose path fails validation does no model work: the calls it
    makes are the one or two questions of the validator about that
    path, and it neither loads the model, nor decodes, nor reads the
    clock. *)
Theorem invalid_input_does_no_model_work (e : env float) (a : args) :
  snd (validated e a) = Ok false ->
  made (run_cli e (Parsed a)) = validation_calls e (audio_file a)
  /\ forall c, In c (made (run_cli e (Parsed a))) ->
       c = CallExists (audio_file a) \/ c = CallGetsize (audio_file a).
Proof.
  rewrite validated_result. intros Hv. injection Hv as Hv.
  destruct (run_cli_parsed e a) as [Hmade _].
  rewrite Hv, app_nil_r in Hmade. rewrite Hmade.
  split; [reflexivity|].
  unfold validation_calls. intros c.
  destruct (fs e !! audio_file a); simpl; intuition auto.
Qed.

(** X7: Whatever the command line, a run calls [WhisperModel] with the
    model size and the device of the command line passed on as they
    are, with [int8] quantization, at most four threads, the cache
    directory under the home directory and downloads allowed; and a
    decode call is made for the audio file of the command line. *)
Theorem run_passes_configuration (e : env float) (a : args) :
  (forall la r, In (CallLoad la r) (made (run_cli e (Parsed a))) ->
     la_model_size la = args_model a
     /\ la_device la = args_device a
     /\ la_compute_type la = "int8"
     /\ la_cpu_threads la <= 4
     /\ la_download_root la = expanduser e "~/.cache/faster-whisper"
     /\ la_local_files_only la = false
     /\ r = whisper_model e la)
  /\ (forall h q l, In (CallDecode h q l) (made (run_cli e (Parsed a))) ->
        q = audio_file a).
Proof.
  destruct (run_cli_parsed e a) as [Hmade _]. rewrite Hmade. split.
  - intros la r Hin. apply in_app_or in Hin. destruct Hin as [Hin|Hin].
    + now apply validation_calls_load in Hin.
    + destruct (valid_audio e (audio_file a)); [|destruct Hin].
      apply new_calls_load in Hin. destruct Hin as (_ & -> & ->).
      repeat split. cbn. unfold pick_cpu_threads. lia.
  - intros h q l Hin. apply in_app_or in Hin. destruct Hin as [Hin|Hin].
    + now apply validation_calls_decode in Hin.
    + destruct (valid_audio e (audio_file a)); [|destruct Hin].
      apply new_calls_decode in Hin. tauto.
Qed.

(** X8: The number of threads asked for is at most four: it is four when the
    number of cores is unknown, zero, or four and more, and the number
    of cores when that is one, two or three. *)
Theorem cpu_threads_bounded (e : env float) (size dev : string)
    (lang : option string) (ct : string) :
  cpu_threads (__init__ e size dev lang ct) <= 4
  /\ (cpu_count e = None \/ cpu_count e = Some 0 ->
      cpu_threads (__init__ e size dev lang ct) = 4)
  /\ (forall n, cpu_count e = Some n -> 4 <= n ->
      cpu_threads (__init__ e size dev lang ct) = 4)
  /\ (forall n, cpu_count e = Some n -> 0 < n < 4 ->
      cpu_threads (__init__ e size dev lang ct) = n).
Proof.
  cbn [__init__ cpu_threads]. unfold pick_cpu_threads.
  split; [lia|]. split; [intros [->| ->]; reflexivity|].
  split; intros n -> Hn; destruct (Z.eqb_spec n 0); lia.
Qed.

(** What one call logs at the start-up level. *)
Lemma transcribe_file_quiet :
  forall (e : env float) (p : string) (me : transcriber) (s : proc float),
    root_level s = WARNING ->
    exists l,
      stderr (snd (fst (transcribe_file e p (me, s)))) = stderr s ++ l
      /\ (length l <= 1)%nat
      /\ Forall (fun r => levelno r = ERROR) l
      /\ (forall d, snd (transcribe_file e p (me, s)) = Ok d -> l = []).
Proof.
  assert (Hi : (WARNING <=? INFO) = false) by reflexivity.
  assert (He : (WARNING <=? ERROR) = true) by reflexivity.
  intros e p me s Hlv.
  destruct s as [o er lv cs ck], me as [ms dv lg ct mo th].
  cbn [root_level] in Hlv. subst lv.
  py_unfold. rewrite ?Hi, ?He.
  destruct mo;
    repeat (py_case; rewrite ?Hi, ?He; cbv beta iota);
    rewrite ?app_nil_r;
    first [ exists []; rewrite app_nil_r; split; [reflexivity|];
            split; [simpl; lia|]; split; [constructor|]; intros; reflexivity
          | eexists; split; [reflexivity|];
            split; [simpl; lia|]; split; [repeat constructor|];
            intros; discriminate ].
Qed.

(** X9: Without [--verbose] standard error stays clean: a run logs at most
    one record, an error, and none at all when it succeeds or when the
    path fails validation. *)
Theorem quiet_without_verbose (e : env float) (path m l d : string) :
  (length (err (run_cli e (Parsed {| audio_file := path; args_model := m;
                                     args_language := l; args_device := d;
                                     verbose := false |}))) <= 1)%nat
  /\ Forall (fun r => levelno r = ERROR)
       (err (run_cli e (Parsed {| audio_file := path; args_model := m;
                                  args_language := l; args_device := d;
                                  verbose := false |})))
  /\ (returncode (run_cli e (Parsed {| audio_file := path; args_model := m;
                                       args_language := l; args_device := d;
                                       verbose := false |})) = 0 ->
      err (run_cli e (Parsed {| audio_file := path; args_model := m;
                                args_language := l; args_device := d;
                                verbose := false |})) = [])
  /\ (valid_audio e path = false ->
      err (run_cli e (Parsed {| audio_file := path; args_model := m;
                                args_language := l; args_device := d;
                                verbose := false |})) = []).
Proof.
  cbv [run_cli transcriber_of main
       audio_file args_model args_language args_device verbose
       setLevel modify ret bind try_except start with_object fst snd
       stdout stderr root_level calls clock].
  set (me := __init__ e m d _ "int8").
  match goal with |- context [validate_audio_file e path ?s] => set (s0 := s) end.
  pose proof (validate_audio_file_result e path s0) as Hrv.
  pose proof (validate_audio_file_state e path s0) as Hsv.
  destruct (validate_audio_file e path s0) as [s1 rv].
  cbn [fst snd] in Hrv, Hsv. subst rv s1.
  destruct (valid_audio e path).
  2:{ cbv [negb print_json sys_exit raise modify bind err returncode exit_status
           stdout stderr root_level calls clock s0].
      repeat split; try constructor; simpl; lia || discriminate. }
  cbv [negb]. cbv beta iota.
  match goal with
  | |- context [transcribe_file ?e' ?p' (?me', ?s)] =>
      destruct (transcribe_file_quiet e' p' me' s eq_refl) as (lg & Hlg & Hlen & Hall & Hok);
      pose proof (transcribe_file_result e' p' me' s) as Hrt;
      destruct (transcribe_file e' p' (me', s)) as [[me2 s2] rt]
  end.
  cbn [fst snd] in Hlg, Hok, Hrt. destruct s2 as [o2 er2 lv2 cs2 ck2].
  cbv [s0 stderr] in Hlg. cbn [app] in Hlg. subst er2.
  destruct rt as [d0|[|c|cls msg]];
    cbv [print_json sys_exit raise modify bind err returncode exit_status
         stdout stderr root_level calls clock str_exn].
  - rewrite (Hok d0 eq_refl). repeat split; try constructor; simpl; lia.
  - repeat split; try assumption; discriminate.
  - exfalso. eapply transcription_no_exit. symmetry. exact Hrt.
  - repeat split; try assumption; discriminate.
Qed.

(** X10: The text of a result is stripped: it neither begins nor ends with
    a whitespace character, and stripping it again changes nothing. *)
Theorem text_is_stripped (e : env float) (p : string)
    (me : transcriber) (s : proc float) (d : list (string * json float)) :
  snd (transcribe_file e p (me, s)) = Ok d ->
  exists t,
    dict_get "text" d = Some (JStr t)
    /\ head_space t = false
    /\ last_space t = false
    /\ PyStr.strip t = t.
Proof.
  intros Hd. rewrite transcribe_file_result in Hd.
  apply transcription_ok_inv in Hd.
  destruct Hd as (n & h & segs & i & _ & _ & _ & ->).
  eexists. split; [reflexivity|].
  destruct (strip_head_last (join_with_space (map text segs))) as [Hh Hl].
  split; [exact Hh|]. split; [exact Hl | apply strip_idempotent].
Qed.

(** X11: Segments that hold nothing but whitespace are counted, and give an
    empty text. *)
Theorem blank_segments_are_counted
    (e : env float) (p : string) (me : transcriber) (s : proc float)
    (n : Z) (h : handle) (segs : list segment) (i : info) :
  fs e !! p = Some n ->
  handle_for e me = inr h ->
  whisper_transcribe e h p (language me) =
    inr ({| yielded := segs; stops_with := None |}, i) ->
  Forall (fun seg => all_space (text seg) = true) segs ->
  exists d,
    snd (transcribe_file e p (me, s)) = Ok d
    /\ dict_get "text" d = Some (JStr "")
    /\ dict_get "segments" d = Some (JInt (Z.of_nat (length segs))).
Proof.
  intros Hfs Hh Hw Hblank. rewrite transcribe_file_result.
  rewrite (transcription_ok e p me _ n h segs i Hfs Hh Hw).
  eexists. split; [reflexivity|]. split; [|reflexivity].
  cbn [dict_get String.eqb Ascii.eqb Bool.eqb]. do 2 f_equal.
  rewrite <- strip_spaced. unfold PyStr.strip.
  now rewrite lstrip_all_space by now apply all_space_spaced.
Qed.

(** X12: A path passes validation only when its last component has a
    non-empty stem, a dot, and one of the six extensions up to case; a
    name that is nothing but a dot and an extension, like [.mp3], never
    passes, whatever the size of the file. *)
Theorem validate_needs_stem (e : env float) (p : string) (s : proc float) :
  (snd (validate_audio_file e p s) = Ok true ->
   exists stem ext,
     PyPath.name p = stem +:+ "." +:+ ext
     /\ stem <> "" /\ In (PyStr.lower ext) allow_list)
  /\ (forall x, PyPath.name p = "." +:+ x -> PyStr.rfind "." x = -1 ->
      snd (validate_audio_file e p s) = Ok false).
Proof.
  rewrite validate_audio_file_result. unfold valid_audio. split.
  - intros Hv.
    destruct (fs e !! p) as [n|]; [|discriminate].
    destruct (n <? 1024); [discriminate|].
    injection Hv as Hv. apply bool_decide_eq_true in Hv.
    destruct (suffix_shape p) as [Hs|(stem & ext & Hn & Hstem & _ & _ & Hs)];
      rewrite Hs in Hv.
    + exfalso. revert Hv. unfold valid_extensions.
      rewrite !elem_of_union, !elem_of_singleton. cbn.
      intros [[[[[E|E]|E]|E]|E]|E]; discriminate.
    + exists stem, ext. split; [exact Hn|]. split; [exact Hstem|].
      rewrite lower_dot in Hv.
      change ("." +:+ PyStr.lower ext) with (String "." (PyStr.lower ext)) in Hv.
      revert Hv. unfold valid_extensions, allow_list.
      rewrite !elem_of_union, !elem_of_singleton.
      intros [[[[[E|E]|E]|E]|E]|E]; injection E as E; rewrite E; simpl; tauto.
  - intros x Hn Hx.
    assert (Hs : PyPath.suffix p = "").
    { unfold PyPath.suffix. rewrite Hn.
      change ("." +:+ x) with (String "." x). cbn [PyStr.rfind]. rewrite Hx.
      reflexivity. }
    destruct (fs e !! p) as [n|]; [|reflexivity].
    destruct (n <? 1024); [reflexivity|].
    rewrite Hs. reflexivity.
Qed.

End Wrapper.

(** ** The smoke test *)

Section SmokeTest.
Context {float : Type}.
Import Harness.

Lemma report_cases (output : json float) (files : gset string) :
  report output files = (files, Ok tt)
  \/ exists cls msg,
       report output files = (files, Raise (Exception cls msg))
       /\ String.eqb cls "JSONDecodeError" = false.
Proof.
  unfold report.
  destruct output as [ | b | n | x | t | l | kv ];
    try (right; do 2 eexists; split; reflexivity).
  destruct (default (JInt 0) (dict_get "duration" kv)) as [ | b | n | x | t | l | kv' ];
    cbv beta iota;
    try (left; reflexivity); try (right; do 2 eexists; split; reflexivity).
  destruct (formats_2f (JInt n));
    [left; reflexivity | right; do 2 eexists; split; reflexivity].
Qed.

(** When the report goes through. *)
Lemma report_ok (output : json float) (files : gset string) :
  snd (report output files) = Ok tt <->
  exists kv, output = JObj kv
             /\ formats_2f (default (JInt 0) (dict_get "duration" kv)) = true.
Proof.
  unfold report. split.
  - destruct output as [ | b | n | x | t | l | kv ]; try discriminate.
    intros Hr. exists kv. split; [reflexivity|]. revert Hr.
    destruct (default (JInt 0) (dict_get "duration" kv)) as [ | b | n | x | t | l | kv' ];
      cbv beta iota; try discriminate; try reflexivity.
    destruct (formats_2f (JInt n)); [reflexivity | discriminate].
  - intros (kv & -> & Hfmt). revert Hfmt.
    destruct (default (JInt 0) (dict_get "duration" kv)) as [ | b | n | x | t | l | kv' ];
      cbv beta iota; try discriminate; try reflexivity.
    intros ->. reflexivity.
Qed.

(** The check of the requirements touches no file; it returns unless
    the import raises something that is not an [ImportError]. *)
Lemma requirements_check_cases (w : world float) (files : gset string) :
  requirements_check w files = (files, Ok tt)
  \/ exists ex,
       import_faster_whisper w = Some ex /\ is_ImportError ex = false
       /\ requirements_check w files = (files, Raise ex).
Proof.
  unfold requirements_check, try_except, except_ImportError, raise, ret.
  destruct (import_faster_whisper w) as [ex|]; [|left; reflexivity].
  destruct (is_ImportError ex) eqn:Hi; [left; reflexivity|].
  right. exists ex. auto.
Qed.

Lemma removed_is_gone (f : string) (files : gset string) : f ∉ files ∖ {[ f ]}.
Proof.
  rewrite elem_of_difference, elem_of_singleton. intros [_ Hne]. now apply Hne.
Qed.

Lemma run_test_removes (w : world float) (f : string) (files : gset string) :
  match transcribe_run w with
  | RunInterrupted => snd (run_test w f files) = Raise KeyboardInterrupt
  | _ =>
      (exists returned, snd (run_test w f files) = Ok returned)
      /\ f ∉ fst (run_test w f files)
  end.
Proof.
  unfold run_test.
  assert (Hclean : forall files' : gset string,
    (exists returned,
       snd ((still <- path_exists f ;;
             (if still then os_remove f else ret tt) ;;
             ret (None : option bool)) files') = Ok returned)
    /\ f ∉ fst ((still <- path_exists f ;;
                 (if still then os_remove f else ret tt) ;;
                 ret (None : option bool)) files')).
  { intros files'. cbv [bind path_exists os_remove ret].
    destruct (bool_decide (f ∈ files')) eqn:Hin; cbv beta iota; rewrite ?Hin; cbn [fst snd].
    - split; [eauto | apply removed_is_gone].
    - split; [eauto|]. now apply bool_decide_eq_false in Hin. }
  destruct (transcribe_run w) as [rc o| |cls msg|] eqn:Hrun;
    cbv [bind try_except subprocess_run modify ret raise except_Exception fst snd];
    try apply Hclean; try reflexivity.
  destruct (rc =? 0); [|apply Hclean].
  destruct (json_loads w o) as [output|]; [|cbv [except_class String.eqb Ascii.eqb Bool.eqb]; apply Hclean].
  destruct (report_cases output (during_run w files)) as [Hr|(cls & msg & Hr & Hcls)];
    rewrite Hr.
  - cbv [os_remove]. destruct (bool_decide (f ∈ during_run w files)) eqn:Hin.
    + cbn [fst snd]. split; [eauto | apply removed_is_gone].
    + cbv [except_class]. cbn [String.eqb]. apply Hclean.
  - cbv [except_class]. rewrite Hcls. apply Hclean.
Qed.

Lemma create_test_audio_some (w : world float) (files files' : gset string)
    (f t : string) :
  create_test_audio w files = (files', Ok (Some f, t)) ->
  f = test_file /\ f ∈ files'.
Proof.
  cbv [create_test_audio bind try_except modify path_exists ret].
  destruct (which_espeak w =? 0); [|intros Hc; discriminate].
  match goal with |- context [bool_decide ?P] => destruct (bool_decide P) eqn:Hin end;
    intros Hc; [|discriminate].
  injection Hc as <- <- _. split; [reflexivity|].
  now apply bool_decide_eq_true in Hin.
Qed.

(** C7: on a run of the harness that synthesized a test file, that file
    is removed, whether the child exits with status 0 and prints valid
    JSON, prints invalid JSON, exits with another status, times out, or
    [subprocess.run] raises another exception of the [Exception]
    family. The test function then returns, at once on the success path
    and after the check of the requirements on the others; the one
    other way out of that check is an exception of [import
    faster_whisper] that is not an [ImportError], which leaves the
    function after the file was removed. Only an interrupt of
    [subprocess.run], which nothing catches, leaves the function before
    the removal. *)
Theorem test_file_removed (w : world float) (files : gset string) (f : string) :
  synthesized w files = Some f ->
  match transcribe_run w with
  | RunInterrupted => snd (test_transcription w files) = Raise KeyboardInterrupt
  | _ =>
      (f ∉ fst (test_transcription w files))
      /\ ((exists passed, snd (test_transcription w files) = Ok passed)
          \/ exists ex,
               import_faster_whisper w = Some ex /\ is_ImportError ex = false
               /\ snd (test_transcription w files) = Raise ex)
  end.
Proof.
  unfold synthesized, test_transcription.
  destruct (script_exists w); [|discriminate]. cbn [negb].
  destruct (help_run w) as [[| |] o| | |]; try discriminate.
  destruct (create_test_audio w files) as [files' [[[f'|] t]|ex]] eqn:Hc;
    try discriminate.
  intros Hf. injection Hf as ->.
  destruct (create_test_audio_some w files files' f t Hc) as [_ Hin].
  cbv [bind try_except subprocess_run ret fst snd Z.eqb].
  rewrite Hc. cbv [path_exists]. rewrite (bool_decide_eq_true_2 _ Hin).
  pose proof (run_test_removes w f files') as Hrun.
  destruct (transcribe_run w);
    destruct (run_test w f files') as [files'' r]; cbn [fst snd] in Hrun |- *;
    try (now rewrite Hrun).
  all: destruct Hrun as [[returned ->] Hout]; destruct returned as [b|];
    [cbn [fst snd]; split; [exact Hout | left; eauto]|];
    destruct (requirements_check_cases w files'') as [Hq|(ex & Hi & Hn & Hq)];
    rewrite Hq; cbn [fst snd]; (split; [exact Hout|]); [left; eauto | right; eauto].
Qed.
(** *** More on the harness *)

(** What [create_test_audio] returns and leaves behind. *)
Lemma create_test_audio_facts (w : world float) (files : gset string) :
  (exists found, snd (create_test_audio w files) = Ok (found, test_text))
  /\ (which_espeak w <> 0 ->
      create_test_audio w files = (files, Ok (None, test_text)))
  /\ (forall f t, snd (create_test_audio w files) = Ok (Some f, t) ->
      which_espeak w = 0 /\ f = test_file
      /\ test_file ∈ fst (create_test_audio w files))
  /\ (which_espeak w = 0 -> test_file ∈ files ->
      snd (create_test_audio w files) = Ok (Some test_file, test_text)).
Proof.
  cbv [create_test_audio bind try_except modify path_exists ret fst snd].
  destruct (Z.eqb_spec (which_espeak w) 0) as [Hz|Hnz].
  - match goal with |- context [bool_decide ?P] => destruct (bool_decide P) eqn:Hin end.
    + apply bool_decide_eq_true in Hin.
      split; [eauto|]. split; [intros Hne; contradiction|].
      split; [|reflexivity].
      intros f t Hr. injection Hr as <- _. auto.
    + apply bool_decide_eq_false in Hin.
      split; [eauto|]. split; [intros Hne; contradiction|].
      split; [intros f t Hr; discriminate|].
      intros _ Hpre. exfalso. apply Hin.
      destruct (espeak_writes w); [|exact Hpre].
      apply elem_of_union. now left.
  - split; [eauto|]. split; [reflexivity|].
    split; [intros f t Hr; discriminate|]. intros Hz. contradiction.
Qed.

(** The files after the espeak command. *)
Lemma create_test_audio_files (w : world float) (files : gset string) :
  fst (create_test_audio w files) =
  if which_espeak w =? 0
  then (if espeak_writes w then files ∪ {[ test_file ]} else files)
  else files.
Proof.
  cbv [create_test_audio bind try_except modify path_exists ret fst snd].
  destruct (which_espeak w =? 0); [|reflexivity].
  match goal with |- context [bool_decide ?P] => destruct (bool_decide P) end;
    reflexivity.
Qed.

(** With espeak, the path is returned exactly when it exists after the
    espeak command. *)
Lemma create_test_audio_found (w : world float) (files : gset string) :
  which_espeak w = 0 ->
  snd (create_test_audio w files) =
  Ok (if bool_decide (test_file ∈ fst (create_test_audio w files))
      then Some test_file else None, test_text).
Proof.
  intros Hz. rewrite create_test_audio_files.
  cbv [create_test_audio bind try_except modify path_exists ret fst snd].
  rewrite Hz. cbn [Z.eqb].
  match goal with |- context [bool_decide ?P] => destruct (bool_decide P) end;
    reflexivity.
Qed.

(** X13: [create_test_audio] raises nothing and always returns the fixed
    sentence. Without espeak it returns no path and touches no file.
    With espeak it returns the fixed path exactly when that path exists
    after the espeak command: always when espeak wrote the file, which
    is then the one file added, and, when espeak wrote nothing, exactly
    when a file of that name was there before. *)
Theorem create_test_audio_cases (w : world float) (files : gset string) :
  (exists found, snd (create_test_audio w files) = Ok (found, test_text))
  /\ (which_espeak w <> 0 ->
      create_test_audio w files = (files, Ok (None, test_text)))
  /\ (which_espeak w = 0 -> espeak_writes w = true ->
      create_test_audio w files =
      (files ∪ {[ test_file ]}, Ok (Some test_file, test_text)))
  /\ (which_espeak w = 0 -> espeak_writes w = false ->
      create_test_audio w files =
      (files, Ok (if bool_decide (test_file ∈ files) then Some test_file else None,
                  test_text)))
  /\ (forall f t,
        snd (create_test_audio w files) = Ok (Some f, t) <->
        f = test_file /\ t = test_text /\ which_espeak w = 0
        /\ test_file ∈ fst (create_test_audio w files)).
Proof.
  pose proof (create_test_audio_facts w files) as (Hall & Hnone & Hsome & _).
  pose proof (create_test_audio_files w files) as Hfiles.
  pose proof (create_test_audio_found w files) as Hfound.
  split; [exact Hall|]. split; [exact Hnone|].
  split; [|split].
  - intros Hz Hw. specialize (Hfound Hz).
    rewrite Hz, Hw in Hfiles. cbn [Z.eqb] in Hfiles.
    destruct (create_test_audio w files) as [files' r]. cbn [fst snd] in *.
    subst files' r. f_equal.
    rewrite bool_decide_eq_true_2; [reflexivity|].
    apply elem_of_union. right. now apply elem_of_singleton.
  - intros Hz Hw. specialize (Hfound Hz).
    rewrite Hz, Hw in Hfiles. cbn [Z.eqb] in Hfiles.
    destruct (create_test_audio w files) as [files' r]. cbn [fst snd] in *.
    now subst files' r.
  - intros f t. split.
    + intros Hr. destruct (Hsome f t Hr) as (Hz & -> & Hin).
      destruct Hall as [found Hfd]. rewrite Hfd in Hr. injection Hr as _ <-.
      auto.
    + intros (-> & -> & Hz & Hin). rewrite (Hfound Hz).
      now rewrite (bool_decide_eq_true_2 _ Hin).
Qed.


Ltac still_there :=
  match goal with
  | |- context [bool_decide ?P] =>
      let Hd := fresh "Hd" in
      destruct (bool_decide P) eqn:Hd; cbv beta iota; rewrite ?Hd; cbv beta iota
  end.

Ltac not_passed :=
  match goal with
  | |- context [requirements_check ?w ?X] =>
      destruct (requirements_check w X) as [? [?|?]]; discriminate
  end.

(** When [test_transcription] returns [True], with an [os.remove] that
    removes every file that exists. *)
Lemma test_passes_conditions (w : world float) (files : gset string) :
  snd (test_transcription w files) = Ok true <->
  script_exists w = true
  /\ (exists o, help_run w = Returned 0 o)
  /\ which_espeak w = 0
  /\ test_file ∈ fst (create_test_audio w files)
  /\ exists o kv,
       transcribe_run w = Returned 0 o
       /\ json_loads w o = Some (JObj kv)
       /\ formats_2f (default (JInt 0) (dict_get "duration" kv)) = true
       /\ test_file ∈ during_run w (fst (create_test_audio w files)).
Proof.
  pose proof (create_test_audio_facts w files) as (_ & Hnone & Hsome & _).
  unfold test_transcription.
  destruct (script_exists w); cbn [negb];
    [|split; [discriminate | intros [Hs _]; discriminate]].
  destruct (help_run w) as [[|rc|rc] oh| |cls msg|];
    cbv [bind try_except subprocess_run ret raise except_Exception fst snd Z.eqb];
    try (split; [discriminate | intros (_ & [o Ho] & _); discriminate]).
  destruct (create_test_audio w files) as [files' [[[f|] t]|ex]] eqn:Hc;
    cbn [fst snd] in *.
  2:{ split; [not_passed|]. intros (_ & _ & Hz & Hin & _).
      (* no path was returned although the file exists after espeak *)
      exfalso.
      pose proof (create_test_audio_found w files Hz) as Hfound.
      rewrite Hc in Hfound. cbn [fst snd] in Hfound.
      rewrite (bool_decide_eq_true_2 _ Hin) in Hfound. discriminate. }
  2:{ split; [discriminate|]. intros (_ & _ & Hz & _).
      destruct (create_test_audio_facts w files) as ([found Hfound] & _).
      rewrite Hc in Hfound. discriminate. }
  destruct (Hsome f t eq_refl) as (Hz & -> & Hin).
  cbv [path_exists]. rewrite (bool_decide_eq_true_2 _ Hin).
  unfold run_test.
  cbv [bind try_except subprocess_run modify ret raise except_Exception
       except_class path_exists os_remove fst snd].
  destruct (transcribe_run w) as [rc o| |cls msg|].
  4:{ split; [discriminate|]. intros (_ & _ & _ & _ & o & kv & Hr & _). discriminate. }
  2,3: (split; [|intros (_ & _ & _ & _ & o & kv & Hr & _); discriminate]);
       still_there; not_passed.
  destruct (Z.eqb_spec rc 0) as [->|Hrc].
  2:{ split; [|intros (_ & _ & _ & _ & o' & kv & Hr & _); injection Hr as Hr _; contradiction].
      still_there; not_passed. }
  destruct (json_loads w o) as [output|] eqn:Hj.
  2:{ cbv [String.eqb Ascii.eqb Bool.eqb].
      split; [|intros (_ & _ & _ & _ & o' & kv & Hr & Hj' & _);
               injection Hr as <-; congruence].
      still_there; not_passed. }
  pose proof (report_ok output (during_run w files')) as Hok.
  destruct (report_cases output (during_run w files')) as [Hr|(cls & msg & Hr & Hcls)];
    rewrite Hr in Hok |- *; cbn [snd] in Hok.
  - destruct (bool_decide (test_file ∈ during_run w files')) eqn:Hin'.
    + split; [intros _ | reflexivity].
      apply bool_decide_eq_true in Hin'.
      destruct (proj1 Hok eq_refl) as (kv & -> & Hfmt).
      repeat (split; [now eauto|]).
      exists o, kv. auto.
    + cbv [String.eqb Ascii.eqb Bool.eqb]. rewrite Hin'.
      split; [not_passed|].
      intros (_ & _ & _ & _ & o' & kv & Hr' & _ & _ & Hstill).
      apply bool_decide_eq_false in Hin'. contradiction.
  - rewrite Hcls.
    split.
    + still_there; not_passed.
    + intros (_ & _ & _ & _ & o' & kv & Hr' & Hj' & Hfmt & _).
      injection Hr' as <-. rewrite Hj in Hj'. injection Hj' as ->.
      assert (Hbad : @Raise unit (Exception cls msg) = Ok tt)
        by (apply Hok; eauto).
      discriminate.
Qed.

(** X15: The test passes only when the script is there, the help run
    exits with status 0, espeak is installed and the test file exists
    after it, the child exits with status 0, its output parses as a
    JSON object whose [duration] (0 when absent) is a float, a bool or
    an integer that converts to a float, and the test file is still
    there to be removed. When espeak wrote the test file itself, these
    conditions are enough: the text the child transcribed plays no
    part. The harness itself returns 0 exactly when the test passes.
    An integer converts to a float when it lies strictly between
    [-(2**1024 - 2**970)] and [2**1024 - 2**970]. *)
Theorem test_passes_when (w : world float) (files : gset string) :
  (snd (test_transcription w files) = Ok true ->
   script_exists w = true
   /\ (exists o, help_run w = Returned 0 o)
   /\ which_espeak w = 0
   /\ test_file ∈ fst (create_test_audio w files)
   /\ exists o kv,
        transcribe_run w = Returned 0 o
        /\ json_loads w o = Some (JObj kv)
        /\ formats_2f (default (JInt 0) (dict_get "duration" kv)) = true
        /\ test_file ∈ during_run w (fst (create_test_audio w files)))
  /\ (script_exists w = true ->
      (exists o, help_run w = Returned 0 o) ->
      which_espeak w = 0 ->
      espeak_writes w = true ->
      (exists o kv,
         transcribe_run w = Returned 0 o
         /\ json_loads w o = Some (JObj kv)
         /\ formats_2f (default (JInt 0) (dict_get "duration" kv)) = true
         /\ test_file ∈ during_run w (files ∪ {[ test_file ]})) ->
      snd (test_transcription w files) = Ok true)
  /\ (snd (main w files) = Ok 0 <-> snd (test_transcription w files) = Ok true)
  /\ (forall n : Z,
        formats_2f (JInt n : json float) = true <->
        - (2 ^ 1024 - 2 ^ 970) < n < 2 ^ 1024 - 2 ^ 970).
Proof.
  split; [apply test_passes_conditions|]. split; [|split].
  - intros Hs Hh Hz Hw Hrun. apply test_passes_conditions.
    pose proof (create_test_audio_files w files) as Hfiles.
    rewrite Hz, Hw in Hfiles. cbn [Z.eqb] in Hfiles. rewrite Hfiles.
    repeat (split; [assumption|]).
    split; [|exact Hrun].
    apply elem_of_union. right. now apply elem_of_singleton.
  - unfold main, bind. destruct (test_transcription w files) as [files' [[|]|ex]];
      cbn [fst snd ret]; split; intros Hr; try reflexivity; discriminate.
  - intros n. unfold formats_2f, converts_to_float.
    rewrite Z.ltb_lt. lia.
Qed.

(** The files [run_test] leaves, apart from the test file. *)
Lemma run_test_frame (w : world float) (f : string) (files : gset string) (q : string) :
  q <> f ->
  q ∈ fst (run_test w f files) <-> q ∈ during_run w files.
Proof.
  intros Hq. unfold run_test.
  assert (Hclean : forall files' : gset string,
    q ∈ fst ((still <- path_exists f ;;
              (if still then os_remove f else ret tt) ;;
              ret (None : option bool)) files') <-> q ∈ files').
  { intros files'. cbv [bind path_exists os_remove ret].
    destruct (bool_decide (f ∈ files')) eqn:Hin; cbv beta iota; rewrite ?Hin;
      cbn [fst snd]; [|reflexivity].
    rewrite elem_of_difference, elem_of_singleton. tauto. }
  destruct (transcribe_run w) as [rc o| |cls msg|];
    cbv [bind try_except subprocess_run modify ret raise except_Exception fst snd];
    try apply Hclean; try reflexivity.
  destruct (rc =? 0); [|apply Hclean].
  destruct (json_loads w o) as [output|];
    [|cbv [except_class String.eqb Ascii.eqb Bool.eqb]; apply Hclean].
  destruct (report_cases output (during_run w files)) as [Hr|(cls & msg & Hr & Hcls)];
    rewrite Hr.
  - cbv [os_remove]. destruct (bool_decide (f ∈ during_run w files)) eqn:Hin.
    + cbn [fst snd]. rewrite elem_of_difference, elem_of_singleton. tauto.
    + cbv [except_class]. cbn [String.eqb]. apply Hclean.
  - cbv [except_class]. rewrite Hcls. apply Hclean.
Qed.

(** X16: The harness creates and removes one file only: when nothing else
    changes the files while the child runs, every path but the test
    file exists after [test_transcription] exactly when it did before,
    however the run ends. *)
Theorem only_the_test_file_changes (w : world float) (files : gset string) (q : string) :
  (forall X, during_run w X = X) ->
  q <> test_file ->
  q ∈ fst (test_transcription w files) <-> q ∈ files.
Proof.
  intros Hstill Hq.
  assert (Hesp : q ∈ fst (create_test_audio w files) <-> q ∈ files).
  { rewrite create_test_audio_files.
    destruct (which_espeak w =? 0); [|reflexivity].
    destruct (espeak_writes w); [|reflexivity].
    rewrite elem_of_union, elem_of_singleton. tauto. }
  assert (Hcheck : forall X : gset string,
    fst (match requirements_check w X with
         | (s', Ok _) => (s', Ok false)
         | (s', Raise e) => (s', Raise e)
         end) = X).
  { intros X.
    destruct (requirements_check_cases w X) as [Hc|(ex & _ & _ & Hc)];
      now rewrite Hc. }
  unfold test_transcription.
  destruct (script_exists w); cbn [negb]; [|reflexivity].
  destruct (help_run w) as [[|rc|rc] oh| |cls msg|];
    cbv [bind try_except subprocess_run ret raise except_Exception fst snd Z.eqb];
    try reflexivity.
  pose proof (create_test_audio_facts w files) as ([found Hfound] & _ & Hsome & _).
  destruct (create_test_audio w files) as [files' r]. cbn [fst snd] in *.
  subst r. cbv beta iota. cbn [fst].
  destruct found as [f|];
    [|change (q ∈ fst (match requirements_check w files' with
                       | (s', Ok _) => (s', Ok false)
                       | (s', Raise e) => (s', Raise e)
                       end) <-> q ∈ files);
      now rewrite Hcheck].
  destruct (Hsome f test_text eq_refl) as (_ & -> & Hin).
  cbv [path_exists]. rewrite (bool_decide_eq_true_2 _ Hin).
  pose proof (run_test_frame w test_file files' q Hq) as Hframe.
  rewrite Hstill in Hframe.
  destruct (run_test w test_file files') as [files'' [[b|]|ex]];
    cbn [fst snd] in *; try now rewrite Hframe.
  change (q ∈ fst (match requirements_check w files'' with
                   | (s', Ok _) => (s', Ok false)
                   | (s', Raise e) => (s', Raise e)
                   end) <-> q ∈ files).
  now rewrite Hcheck, Hframe.
Qed.

End SmokeTest.

(** ** Sample runs *)

(** C1, as first stated, fails: a command line the parser rejects ends
    the process with status 2 and nothing on standard output, and
    [--help] ends it with status 0 after printing the help text. *)
Lemma parser_exit_prints_no_json :
  ~ one_json_object (run_cli pi usage_error)
  /\ returncode (run_cli pi usage_error) = 2
  /\ ~ one_json_object (run_cli pi help_request)
  /\ returncode (run_cli pi help_request) = 0.
Proof.
  split; [intros (b & kv & Hout); discriminate|].
  split; [reflexivity|].
  split; [intros (b & kv & Hout); discriminate | reflexivity].
Qed.

Lemma main_four_outcomes_witness :
  out (run_cli pi (Parsed (cli "/tmp/short.wav" "en" false))) =
    [Json true (error_object "Invalid or missing audio file: /tmp/short.wav")]
  /\ returncode (run_cli pi (Parsed (cli "/tmp/short.wav" "en" false))) = 1.
Proof.
  exact (proj2 (main_four_outcomes pi (cli "/tmp/short.wav" "en" false))).
Defined.

Lemma validate_audio_file_iff_witness :
  snd (validate_audio_file pi "/tmp/a.WAV" start) = Ok true.
Proof.
  apply (proj1 (validate_audio_file_iff pi "/tmp/a.WAV" start)).
  exists 2048. split; [reflexivity|]. split; [lia|].
  exists "wav". split; [simpl; tauto | reflexivity].
Defined.

(** C3, as first stated, fails: the keys for the time taken and for the
    number of segments are [duration] and [segments]. *)
Lemma result_keys_differ :
  exists d,
    snd (transcribed pi (cli "/tmp/a.WAV" "en" false)) = Ok d
    /\ keys d <> TranscriptionResult_fields
    /\ dict_get "duration_seconds" d = None
    /\ dict_get "segment_count" d = None
    /\ dict_get "duration" d = Some (JFloat 150)
    /\ dict_get "segments" d = Some (JInt 2).
Proof.
  eexists. split; [vm_compute; reflexivity|].
  split; [discriminate|]. repeat split.
Qed.

Lemma result_fields_witness :
  keys hello_result =
    ["text"; "language"; "duration"; "segments"; "model_size"; "file_size_mb"]
  /\ exists t c x n y,
       hello_result =
       [("text", JStr t); ("language", JStr c); ("duration", JFloat x);
        ("segments", JInt n); ("model_size", JStr "tiny");
        ("file_size_mb", JFloat y)].
Proof.
  assert (Hrun : snd (transcribe_file pi "/tmp/a.WAV" (pi_transcriber, start)) =
                 Ok hello_result) by (vm_compute; reflexivity).
  assert (Hne : FasterWhisperTranscriber.language pi_transcriber <> None)
    by discriminate.
  destruct (proj1 (result_fields (H := hundredths)) pi "/tmp/a.WAV" pi_transcriber
              start hello_result Hrun)
    as (Hkeys & t & l & x & n & y & Hd & Hl).
  split; [exact Hkeys|].
  destruct (Hl (or_introl Hne)) as [c Hc]. subst l.
  exists t, c, x, n, y. exact Hd.
Defined.

Lemma transcribe_file_joins_segments_witness :
  exists d,
    snd (transcribe_file pi "/tmp/a.WAV"
           (transcriber_of pi (cli "/tmp/a.WAV" "en" false), start)) = Ok d
    /\ dict_get "text" d = Some (JStr "Hello  world.")
    /\ dict_get "segments" d = Some (JInt 2).
Proof.
  destruct (transcribe_file_joins_segments pi "/tmp/a.WAV"
              (transcriber_of pi (cli "/tmp/a.WAV" "en" false)) start
              2048 1%nat (yielded hello) {| info_language := Some "en" |}
              ltac:(reflexivity) ltac:(reflexivity) ltac:(reflexivity))
    as (d & Hd & Ht & Hn & _).
  exists d. split; [exact Hd|]. split; [exact Ht | exact Hn].
Defined.

Lemma model_loaded_lazily_witness :
  (length (List.filter created_handle
     (calls (snd (transcribe_each [(pi, "/tmp/a.WAV"); (pi, "/tmp/a.WAV")]
                    (FasterWhisperTranscriber.__init__ pi "tiny" "cpu" (Some "en") "int8",
                     start))))) <= 1)%nat.
Proof.
  apply (proj1 model_loaded_lazily pi "tiny" "cpu" (Some "en") "int8"
           [(pi, "/tmp/a.WAV"); (pi, "/tmp/a.WAV")] start).
  reflexivity.
Defined.

Lemma language_passed_and_reported_witness :
  In (CallDecode 1%nat "/tmp/a.WAV" None)
     (made (run_cli pi (Parsed (cli "/tmp/a.WAV" "auto" true))))
  /\ exists d,
       out (run_cli pi (Parsed (cli "/tmp/a.WAV" "auto" true))) = [Json false (JObj d)]
       /\ returncode (run_cli pi (Parsed (cli "/tmp/a.WAV" "auto" true))) = 0
       /\ dict_get "language" d = Some (JStr "en").
Proof.
  split.
  - apply (proj1 (language_passed_and_reported (H := hundredths))
             pi (cli "/tmp/a.WAV" "auto" true) 1%nat
             ltac:(vm_compute; reflexivity) ltac:(reflexivity)).
    reflexivity.
  - apply (proj2 (proj2 (proj2 (proj2 (language_passed_and_reported (H := hundredths)))))
             pi (cli "/tmp/a.WAV" "auto" true) 1%nat (yielded hello) "en"
             ltac:(reflexivity) ltac:(vm_compute; reflexivity)
             ltac:(reflexivity) ltac:(reflexivity)).
Defined.

Lemma test_file_removed_witness :
  (Harness.test_file ∉ fst (Harness.test_transcription bad_json_run ∅))
  /\ ((exists passed, snd (Harness.test_transcription bad_json_run ∅) = Ok passed)
      \/ exists ex,
           Harness.import_faster_whisper bad_json_run = Some ex
           /\ Harness.is_ImportError ex = false
           /\ snd (Harness.test_transcription bad_json_run ∅) = Raise ex).
Proof.
  apply (test_file_removed bad_json_run ∅ Harness.test_file).
  vm_compute. reflexivity.
Defined.

Lemma validate_audio_file_total_witness :
  snd (validate_audio_file pi "missing.wav" start) = Ok false.
Proof.
  apply (proj2 (proj2 (proj2 (validate_audio_file_total pi "missing.wav" start)))).
  reflexivity.
Defined.

Lemma init_normalizes_language_witness :
  language (FasterWhisperTranscriber.__init__ pi "tiny" "cpu" (Some "auto") "int8") = None.
Proof.
  apply (proj1 (init_normalizes_language pi "tiny" "cpu" (Some "auto") "int8")).
  right. right. reflexivity.
Defined.

(** C8, as first stated, fails: with the same files and the same
    library, a run with [--verbose] and a run without it print
    different JSON objects when the clock readings differ, since
    [duration] is a difference of two readings. *)
Lemma verbose_run_on_another_clock :
  fs pi_other_clock = fs pi
  /\ whisper_model pi_other_clock = whisper_model pi
  /\ whisper_transcribe pi_other_clock = whisper_transcribe pi
  /\ out (run_cli pi_other_clock (Parsed (with_verbose (cli "/tmp/a.WAV" "en" false) true)))
     <> out (run_cli pi (Parsed (with_verbose (cli "/tmp/a.WAV" "en" false) false)))
  /\ (exists d, out (run_cli pi_other_clock
                       (Parsed (with_verbose (cli "/tmp/a.WAV" "en" false) true)))
                = [Json false (JObj d)]
                /\ dict_get "duration" d = Some (JFloat 151))
  /\ (exists d, out (run_cli pi (Parsed (with_verbose (cli "/tmp/a.WAV" "en" false) false)))
                = [Json false (JObj d)]
                /\ dict_get "duration" d = Some (JFloat 150)).
Proof.
  split; [reflexivity|]. split; [reflexivity|]. split; [reflexivity|].
  split; [vm_compute; discriminate|].
  split; eexists; (split; [vm_compute; reflexivity | reflexivity]).
Qed.

Example verbose_changes_only_the_log :
  err (run_cli pi (Parsed (cli "/tmp/a.WAV" "en" true))) <>
  err (run_cli pi (Parsed (cli "/tmp/a.WAV" "en" false))).
Proof. vm_compute. discriminate. Qed.

(** *** More sample runs *)

Lemma load_model_endings_witness :
  last (stderr (snd (fst (FasterWhisperTranscriber.load_model pi_load_fails
                            (pi_transcriber, start))))) =
  Some {| levelno := ERROR; levelname := "ERROR";
          message := "Failed to load model: no weights" |}.
Proof.
  apply (proj2 (proj2 (proj2 (proj2
           (load_model_endings (H := hundredths) pi_load_fails pi_transcriber start))))).
  vm_compute. discriminate.
Defined.

Lemma transcribe_file_missing_witness :
  transcribe_file pi "missing.wav" (pi_transcriber, start) =
  ((pi_transcriber, record_call (CallExists "missing.wav") start),
   Raise (Exception "FileNotFoundError" "Audio file not found: missing.wav")).
Proof.
  apply (transcribe_file_missing (H := hundredths) pi "missing.wav" pi_transcriber start).
  reflexivity.
Defined.

Lemma transcribe_file_decode_failure_witness :
  snd (transcribe_file pi_decode_fails "/tmp/a.WAV" (pi_transcriber, start)) =
    Raise (Exception "RuntimeError" "bad frame")
  /\ FasterWhisperTranscriber.model
       (fst (fst (transcribe_file pi_decode_fails "/tmp/a.WAV" (pi_transcriber, start)))) =
     Some 1%nat.
Proof.
  destruct (transcribe_file_decode_failure (H := hundredths) pi_decode_fails "/tmp/a.WAV"
              pi_transcriber start 2048 1%nat "RuntimeError" "bad frame"
              ltac:(reflexivity) ltac:(reflexivity)
              ltac:(right; do 2 eexists; reflexivity))
    as (Hr & Hm & _).
  split; [exact Hr | exact Hm].
Defined.

Lemma duration_excludes_loading_witness :
  dict_get "duration" hello_result = Some (JFloat (fsub (now pi 3) (now pi 2))).
Proof.
  apply (proj1 (duration_excludes_loading (H := hundredths) pi "/tmp/a.WAV" pi_transcriber start
                  hello_result ltac:(vm_compute; reflexivity))).
Defined.

Lemma repeated_call_agrees_witness :
  exists d',
    snd (transcribe_file pi "/tmp/a.WAV"
           (fst (transcribe_file pi "/tmp/a.WAV" (pi_transcriber, start)))) = Ok d'
    /\ dict_get "text" d' = dict_get "text" hello_result.
Proof.
  destruct (repeated_call_agrees (H := hundredths) pi "/tmp/a.WAV" pi_transcriber start
              hello_result ltac:(vm_compute; reflexivity))
    as (d' & Hd' & Hsame & _).
  exists d'. split; [exact Hd'|]. apply Hsame. discriminate.
Defined.

Lemma invalid_input_does_no_model_work_witness :
  made (run_cli pi (Parsed (cli "/tmp/short.wav" "en" false))) =
  validation_calls pi "/tmp/short.wav".
Proof.
  apply (proj1 (invalid_input_does_no_model_work (H := hundredths) pi (cli "/tmp/short.wav" "en" false)
                  ltac:(vm_compute; reflexivity))).
Defined.

Lemma run_passes_configuration_witness :
  "/tmp/a.WAV" = audio_file (cli "/tmp/a.WAV" "en" false).
Proof.
  apply (proj2 (run_passes_configuration (H := hundredths) pi (cli "/tmp/a.WAV" "en" false))
           1%nat "/tmp/a.WAV" (Some "en")).
  vm_compute. do 7 right. left. reflexivity.
Defined.

Lemma cpu_threads_bounded_witness :
  FasterWhisperTranscriber.cpu_threads
    (FasterWhisperTranscriber.__init__ pi "tiny" "cpu" (Some "en") "int8") = 4.
Proof.
  apply (proj1 (proj2 (proj2 (cpu_threads_bounded pi "tiny" "cpu" (Some "en") "int8")))
           4 ltac:(reflexivity)).
  lia.
Defined.

Lemma quiet_without_verbose_witness :
  err (run_cli pi (Parsed (cli "/tmp/short.wav" "en" false))) = [].
Proof.
  apply (proj2 (proj2 (proj2
           (quiet_without_verbose (H := hundredths) pi "/tmp/short.wav" "tiny" "en" "cpu")))).
  vm_compute. reflexivity.
Defined.

Lemma text_is_stripped_witness :
  exists t,
    dict_get "text" hello_result = Some (JStr t)
    /\ head_space t = false
    /\ last_space t = false
    /\ PyStr.strip t = t.
Proof.
  apply (text_is_stripped (H := hundredths) pi "/tmp/a.WAV" pi_transcriber start hello_result).
  vm_compute. reflexivity.
Defined.

Lemma blank_segments_are_counted_witness :
  exists d,
    snd (transcribe_file pi_silence "/tmp/a.WAV" (pi_transcriber, start)) = Ok d
    /\ dict_get "text" d = Some (JStr "")
    /\ dict_get "segments" d = Some (JInt 2).
Proof.
  apply (blank_segments_are_counted (H := hundredths) pi_silence "/tmp/a.WAV" pi_transcriber start
           2048 1%nat [{| text := " " |}; {| text := "" |}]
           {| info_language := Some "en" |}
           ltac:(reflexivity) ltac:(reflexivity) ltac:(reflexivity)).
  repeat constructor.
Defined.

Lemma validate_needs_stem_witness :
  exists stem ext,
    PyPath.name "/tmp/a.WAV" = stem +:+ "." +:+ ext
    /\ stem <> "" /\ In (PyStr.lower ext) allow_list.
Proof.
  apply (proj1 (validate_needs_stem pi "/tmp/a.WAV" start)).
  vm_compute. reflexivity.
Defined.

Lemma create_test_audio_cases_witness :
  Harness.create_test_audio passing_run ∅ =
  (∅ ∪ {[ Harness.test_file ]}, Ok (Some Harness.test_file, Harness.test_text)).
Proof.
  apply (proj1 (proj2 (proj2 (create_test_audio_cases passing_run ∅))));
    reflexivity.
Defined.


Example import_failure_leaves_the_harness :
  Harness.main broken_import_run ∅ =
  (∅, Raise (Exception "OSError" "libctranslate2.so: cannot open shared object file")).
Proof. reflexivity. Qed.

Lemma test_passes_when_witness :
  snd (Harness.test_transcription passing_run ∅) = Ok true.
Proof.
  apply (proj1 (proj2 (test_passes_when passing_run ∅)));
    try reflexivity.
  - eexists. reflexivity.
  - exists "{}", []. split; [reflexivity|]. split; [reflexivity|].
    split; [reflexivity|].
    apply elem_of_union. right. now apply elem_of_singleton.
Defined.

Lemma only_the_test_file_changes_witness :
  "fasterWhisper.py" ∈ fst (Harness.test_transcription bad_json_run {[ "fasterWhisper.py" ]})
  <-> "fasterWhisper.py" ∈ ({[ "fasterWhisper.py" ]} : gset string).
Proof.
  apply (only_the_test_file_changes bad_json_run {[ "fasterWhisper.py" ]}
           "fasterWhisper.py").
  - reflexivity.
  - discriminate.
Defined.
